(** * ccproxy.formatters.anthropic_streaming

    A shallow embedding of [ccproxy/formatters/anthropic_streaming.py]: the
    [StreamingFormatter] static methods, which render one protocol event as
    the text of one Server-Sent-Events frame, and the asynchronous generators
    [stream_claude_response] and [stream_anthropic_message_response], which
    drive the formatter from an upstream sequence of chunks.

    Conventions of the embedding.
    - A Python [str] is a [string]; each character stands for the code point
      of the same number, so the model covers the code points below 256.
      What is proved of the wire text holds of such strings; nothing here
      says that two strings with code points above 255 get different
      escapes, which [json.dumps] does not promise for lone surrogates.
    - The values a chunk may hold ([Any] in the source) are the values
      [json.dumps] serialises without a custom encoder, floats excepted:
      [None], booleans, integers, strings, lists and dictionaries with
      string keys.  A dictionary keeps its insertion order; a lookup reads
      the first entry under a key.
    - A frame is the [str] the source builds, character for character. *)

From Stdlib Require Import List String Ascii ZArith Bool Arith Lia DecimalString.
Import ListNotations.
Open Scope string_scope.
Set Warnings "-register-all".

(** ** Characters the source writes with an escape *)

(** The double quote, U+0022. *)
Definition dq : string := String "034"%char EmptyString.

(** The line feed, U+000A, which the source writes as backslash-n. *)
Definition nl : string := String "010"%char EmptyString.

(** The backslash, U+005C. *)
Definition bs : string := String "092"%char EmptyString.

(** ** Python values *)

Inductive pyval : Type :=
| PNone
| PBool (b : bool)
| PInt (z : Z)
| PStr (s : string)
| PList (items : list pyval)
| PDict (entries : list (string * pyval)).

(** [d.get(key, default)] on a dictionary. *)
Fixpoint dict_get (entries : list (string * pyval)) (key : string)
  (default : pyval) : pyval :=
  match entries with
  | [] => default
  | (k, v) :: rest => if String.eqb k key then v else dict_get rest key default
  end.

(** [type(v).__name__]. *)
Definition type_name (v : pyval) : string :=
  match v with
  | PNone => "NoneType"
  | PBool _ => "bool"
  | PInt _ => "int"
  | PStr _ => "str"
  | PList _ => "list"
  | PDict _ => "dict"
  end.

(** [bool(v)], the test of [if v:]. *)
Definition truthy (v : pyval) : bool :=
  match v with
  | PNone => false
  | PBool b => b
  | PInt z => negb (Z.eqb z 0)
  | PStr s => negb (String.eqb s "")
  | PList items => match items with [] => false | _ => true end
  | PDict entries => match entries with [] => false | _ => true end
  end.

(** [v == s] for a string literal [s]: only a [str] equals a [str]. *)
Definition eq_str (v : pyval) (s : string) : bool :=
  match v with
  | PStr t => String.eqb t s
  | _ => false
  end.

(** ** Text of numbers *)

Definition hex_digit (n : nat) : ascii :=
  nth n (list_ascii_of_string "0123456789abcdef") "0"%char.

(** The two lower-case hexadecimal digits of a code point below 256. *)
Definition hex2 (c : ascii) : string :=
  String (hex_digit (nat_of_ascii c / 16))
    (String (hex_digit (nat_of_ascii c mod 16)) EmptyString).

(** [str(z)] of an [int]. *)
Definition int_str (z : Z) : string := NilZero.string_of_int (Z.to_int z).

Fixpoint concat_map {A : Type} (f : A -> string) (l : list A) : string :=
  match l with
  | [] => ""
  | x :: rest => f x ++ concat_map f rest
  end.

Definition string_map (f : ascii -> string) (s : string) : string :=
  concat_map f (list_ascii_of_string s).

(** ** [json.dumps(data, separators=(",", ":"))]

    [ensure_ascii] keeps its default [True]: [json.encoder] replaces every
    character outside [' '..'~'], the quote and the backslash.  The code
    points above 255, which it writes as one or two [u] escapes of four
    digits, are outside the strings of the model. *)

Definition escape_ascii (c : ascii) : string :=
  let n := nat_of_ascii c in
  if Nat.eqb n 34 then bs ++ dq
  else if Nat.eqb n 92 then bs ++ bs
  else if Nat.eqb n 8 then bs ++ "b"
  else if Nat.eqb n 12 then bs ++ "f"
  else if Nat.eqb n 10 then bs ++ "n"
  else if Nat.eqb n 13 then bs ++ "r"
  else if Nat.eqb n 9 then bs ++ "t"
  else if Nat.ltb n 32 || Nat.ltb 126 n then bs ++ "u00" ++ hex2 c
  else String c EmptyString.

Definition encode_basestring_ascii (s : string) : string :=
  dq ++ string_map escape_ascii s ++ dq.

Fixpoint json_dumps (v : pyval) : string :=
  match v with
  | PNone => "null"
  | PBool true => "true"
  | PBool false => "false"
  | PInt z => int_str z
  | PStr s => encode_basestring_ascii s
  | PList items =>
      "[" ++
      (fix dump_items (l : list pyval) : string :=
         match l with
         | [] => ""
         | x :: rest =>
             match rest with
             | [] => json_dumps x
             | _ => json_dumps x ++ "," ++ dump_items rest
             end
         end) items ++ "]"
  | PDict entries =>
      "{" ++
      (fix dump_entries (l : list (string * pyval)) : string :=
         match l with
         | [] => ""
         | (k, x) :: rest =>
             match rest with
             | [] => encode_basestring_ascii k ++ ":" ++ json_dumps x
             | _ => encode_basestring_ascii k ++ ":" ++ json_dumps x ++ ","
                    ++ dump_entries rest
             end
         end) entries ++ "}"
  end.

(** ** [str(v)], what an f-string field writes *)

Fixpoint mem_ascii (c : ascii) (s : string) : bool :=
  match s with
  | EmptyString => false
  | String d rest => Ascii.eqb c d || mem_ascii c rest
  end.

(** One character of [repr] of a [str] delimited by [quote]. *)
Definition repr_char (quote c : ascii) : string :=
  let n := nat_of_ascii c in
  if Ascii.eqb c quote || Nat.eqb n 92 then bs ++ String c EmptyString
  else if Nat.eqb n 9 then bs ++ "t"
  else if Nat.eqb n 10 then bs ++ "n"
  else if Nat.eqb n 13 then bs ++ "r"
  else if Nat.ltb n 32 || Nat.eqb n 127 then bs ++ "x" ++ hex2 c
  else if Nat.ltb n 127 then String c EmptyString
  else if Nat.leb n 160 || Nat.eqb n 173 then bs ++ "x" ++ hex2 c
  else String c EmptyString.

Definition repr_str (s : string) : string :=
  let quote :=
    if mem_ascii "'"%char s && negb (mem_ascii "034"%char s)
    then "034"%char else "'"%char in
  String quote (string_map (repr_char quote) s ++ String quote EmptyString).

Fixpoint py_repr (v : pyval) : string :=
  match v with
  | PNone => "None"
  | PBool true => "True"
  | PBool false => "False"
  | PInt z => int_str z
  | PStr s => repr_str s
  | PList items =>
      "[" ++
      (fix repr_items (l : list pyval) : string :=
         match l with
         | [] => ""
         | x :: rest =>
             match rest with
             | [] => py_repr x
             | _ => py_repr x ++ ", " ++ repr_items rest
             end
         end) items ++ "]"
  | PDict entries =>
      "{" ++
      (fix repr_entries (l : list (string * pyval)) : string :=
         match l with
         | [] => ""
         | (k, x) :: rest =>
             match rest with
             | [] => repr_str k ++ ": " ++ py_repr x
             | _ => repr_str k ++ ": " ++ py_repr x ++ ", " ++ repr_entries rest
             end
         end) entries ++ "}"
  end.

Definition py_str (v : pyval) : string :=
  match v with
  | PStr s => s
  | _ => py_repr v
  end.

(** ** [ccproxy.models.errors] *)

(** Modelled from the spec: the pydantic models [StreamingError] and
    [ErrorDetail] of [ccproxy/models/errors.py] are imported by the source
    and not part of it.  The spec gives the dumped shape
    [{"error":{"type":<errorType>,"message":<message>}}]; this is
    [StreamingError(error=ErrorDetail(type=..., message=...)).model_dump()]. *)
Definition StreamingError_model_dump (error_type message : string)
  : list (string * pyval) :=
  [("error", PDict [("type", PStr error_type); ("message", PStr message)])].

(** ** [class StreamingFormatter] *)

Module StreamingFormatter.

Definition format_event (event_type : string) (data : list (string * pyval))
  : string :=
  let json_data := json_dumps (PDict data) in
  "event: " ++ event_type ++ nl ++ "data: " ++ json_data ++ nl ++ nl.

Definition format_data_only (data : list (string * pyval)) : string :=
  let json_data := json_dumps (PDict data) in
  let event_type := dict_get data "type" (PStr "unknown") in
  "event: " ++ py_str event_type ++ nl ++ "data: " ++ json_data ++ nl ++ nl.

Definition format_message_start (message_id model role : string) : string :=
  let data :=
    [("type", PStr "message_start");
     ("message",
      PDict [("id", PStr message_id);
             ("type", PStr "message");
             ("role", PStr role);
             ("content", PList []);
             ("model", PStr model);
             ("stop_reason", PNone);
             ("stop_sequence", PNone);
             ("usage", PDict [("input_tokens", PInt 0);
                              ("output_tokens", PInt 0)])])] in
  format_data_only data.

Definition format_content_block_start (index : Z) : string :=
  let data :=
    [("type", PStr "content_block_start");
     ("index", PInt index);
     ("content_block", PDict [("type", PStr "text"); ("text", PStr "")])] in
  format_data_only data.

Definition format_content_block_delta (text : pyval) (index : Z) : string :=
  let data :=
    [("type", PStr "content_block_delta");
     ("index", PInt index);
     ("delta", PDict [("type", PStr "text_delta"); ("text", text)])] in
  format_data_only data.

Definition format_content_block_stop (index : Z) : string :=
  let data := [("type", PStr "content_block_stop"); ("index", PInt index)] in
  format_data_only data.

Definition format_message_delta (stop_reason stop_sequence : pyval)
  : string :=
  let data :=
    [("type", PStr "message_delta");
     ("delta", PDict [("stop_reason", stop_reason);
                      ("stop_sequence", stop_sequence)]);
     ("usage", PDict [("output_tokens", PInt 0)])] in
  format_data_only data.

Definition format_message_stop : string :=
  let data := [("type", PStr "message_stop")] in
  format_data_only data.

Definition format_error (error_type message : string) : string :=
  format_data_only (StreamingError_model_dump error_type message).

Definition format_done : string := "data: [DONE]" ++ nl ++ nl.

End StreamingFormatter.

Import StreamingFormatter.

(** ** Exceptions *)

(** The classes the source tells apart: [asyncio.CancelledError];
    [StopAsyncIteration], the subclass of [Exception] by which [__anext__]
    says that the iteration is over; the other subclasses of [Exception];
    and the other subclasses of [BaseException], which no clause of the
    source names. *)
Inductive exn_class : Type :=
| CancelledError
| StopAsyncIteration
| ExceptionClass
| OtherBaseException.

Record exn : Type := mkExn { class_of : exn_class; str_of : string }.

(** The error of [obj.name] on an object without that attribute. *)
Definition AttributeError (obj : pyval) (name : string) : exn :=
  mkExn ExceptionClass
    ("'" ++ type_name obj ++ "' object has no attribute '" ++ name ++ "'").

(** ** The upstream iterator *)

(** What one [__anext__] of the upstream iterator does: it yields a chunk or
    raises.  An iterator is the list of what its successive [__anext__]
    calls do; past the end of the list it raises [StopAsyncIteration], as
    it may do before by an [ARaise] of that class. *)
Inductive anext_result : Type :=
| AYield (chunk : pyval)
| ARaise (e : exn).

(** The first argument of the generators: an object with [__aiter__], or any
    other value. *)
Inductive response : Type :=
| AsyncIterable (it : list anext_result)
| NotAsyncIterable (v : pyval).

(** ** Generator bodies

    A generator body is run to completion by a consumer that takes every
    frame.  It reads and writes the local variables, appends the frames it
    yields, and ends by returning or by raising. *)

Record locals : Type := mkLocals {
  upstream : list anext_result;   (* what the iterator has not produced yet *)
  has_content : bool
}.

Inductive outcome (A : Type) : Type :=
| Returned (a : A)
| Raised (e : exn).
Arguments Returned {A} a.
Arguments Raised {A} e.

Definition gen (A : Type) : Type := locals -> list string * locals * outcome A.

Definition ret {A : Type} (a : A) : gen A :=
  fun st => ([], st, Returned a).

Definition bind {A B : Type} (m : gen A) (k : A -> gen B) : gen B :=
  fun st =>
    match m st with
    | (fs, st1, Returned a) =>
        match k a st1 with
        | (fs', st2, o) => ((fs ++ fs')%list, st2, o)
        end
    | (fs, st1, Raised e) => (fs, st1, Raised e)
    end.

Declare Scope gen_scope.
Delimit Scope gen_scope with gen.
Notation "x <- m ;; k" := (bind m (fun x => k))
  (at level 61, m at next level, right associativity) : gen_scope.
Notation "m ;; k" := (bind m (fun _ => k))
  (at level 61, right associativity) : gen_scope.

Definition yield (frame : string) : gen unit :=
  fun st => ([frame], st, Returned tt).

Definition raise {A : Type} (e : exn) : gen A :=
  fun st => ([], st, Raised e).

Definition get_has_content : gen bool :=
  fun st => ([], st, Returned (has_content st)).

Definition set_has_content (b : bool) : gen unit :=
  fun st => ([], mkLocals (upstream st) b, Returned tt).

Definition set_upstream (it : list anext_result) : gen unit :=
  fun st => ([], mkLocals it (has_content st), Returned tt).

(** [try: body / except ...: handler].  [handlers e] is the body of the first
    clause that matches [e], if one does. *)
Definition try_except {A : Type} (body : gen A)
  (handlers : exn -> option (gen A)) : gen A :=
  fun st =>
    match body st with
    | (fs, st1, Returned a) => (fs, st1, Returned a)
    | (fs, st1, Raised e) =>
        match handlers e with
        | Some handler =>
            match handler st1 with
            | (fs', st2, o) => ((fs ++ fs')%list, st2, o)
            end
        | None => (fs, st1, Raised e)
        end
    end.

(** [try: body / finally: cleanup].  The cleanup runs on both exits; an
    exception of the body goes on after it unless the cleanup raises. *)
Definition try_finally {A : Type} (body : gen A) (cleanup : gen unit) : gen A :=
  fun st =>
    match body st with
    | (fs, st1, o) =>
        match cleanup st1 with
        | (fs', st2, Returned _) => ((fs ++ fs')%list, st2, o)
        | (fs', st2, Raised e') => ((fs ++ fs')%list, st2, Raised e')
        end
    end.

(** How the body of a loop ends one round. *)
Inductive loop_control : Type :=
| LoopNext
| LoopBreak.

(** [async for chunk in it: body].  Each round takes one [__anext__] from the
    iterator; a [StopAsyncIteration] ends the loop, another exception
    leaves it; [break] leaves the rest of the iterator untouched. *)
Fixpoint async_for_from (it : list anext_result)
  (body : pyval -> gen loop_control) : gen unit :=
  match it with
  | [] => set_upstream []
  | r :: it' =>
      (set_upstream it' ;;
       match r with
       | ARaise e =>
           match class_of e with
           | StopAsyncIteration => ret tt
           | _ => raise e
           end
       | AYield chunk =>
           c <- body chunk ;;
           match c with
           | LoopNext => async_for_from it' body
           | LoopBreak => ret tt
           end
       end)%gen
  end.

Definition async_for (body : pyval -> gen loop_control) : gen unit :=
  fun st => async_for_from (upstream st) body st.

(** [obj.get(key, default)]: the method of a dictionary, an
    [AttributeError] on the other values. *)
Definition method_get (obj : pyval) (key : string) (default : pyval)
  : gen pyval :=
  match obj with
  | PDict entries => ret (dict_get entries key default)
  | _ => raise (AttributeError obj "get")
  end.

(** What a consumer that drains a generator observes. *)
Record stream_result : Type := mkResult {
  frames : list string;               (* the frames, in the order yielded *)
  unconsumed : list anext_result;     (* what is left of the upstream *)
  propagated : option exn             (* the exception the consumer gets *)
}.

Definition run (body : gen unit) (it : list anext_result) : stream_result :=
  match body (mkLocals it false) with
  | (fs, st, Returned _) => mkResult fs (upstream st) None
  | (fs, st, Raised e) => mkResult fs (upstream st) (Some e)
  end.

(** ** [stream_claude_response] *)

(** The body of the [async for] loop, lines 173-188. *)
Definition process_chunk (chunk : pyval) : gen loop_control :=
  (match chunk with
   | PDict entries =>
       if eq_str (dict_get entries "type" PNone) "content_block_delta" then
         text <- method_get (dict_get entries "delta" (PDict [])) "text"
                   (PStr "") ;;
         if truthy text then
           set_has_content true ;;
           yield (format_content_block_delta text 0) ;;
           ret LoopNext
         else ret LoopNext
       else if eq_str (dict_get entries "type" PNone) "message_delta" then
         yield (format_content_block_stop 0) ;;
         stop_reason <- method_get (dict_get entries "delta" (PDict []))
                          "stop_reason" (PStr "end_turn") ;;
         stop_sequence <- method_get (dict_get entries "delta" (PDict []))
                            "stop_sequence" PNone ;;
         yield (format_message_delta stop_reason stop_sequence) ;;
         yield format_message_stop ;;
         ret LoopBreak
       else ret LoopNext
   | _ => ret LoopNext              (* logger.warning, nothing yielded *)
   end)%gen.

(** The [try] statement of lines 171-211: the loop, the closing after it,
    and the two inner handlers. *)
Definition drain_and_close : gen unit :=
  try_except
    (async_for process_chunk ;;
     hc <- get_has_content ;;
     if negb hc then
       yield (format_content_block_stop 0) ;;
       yield (format_message_delta (PStr "end_turn") PNone) ;;
       yield format_message_stop
     else ret tt)%gen
    (fun e =>
       match class_of e with
       | CancelledError => Some
           (hc <- get_has_content ;;
            (if negb hc then yield (format_content_block_stop 0) else ret tt) ;;
            yield (format_message_delta (PStr "cancelled") PNone) ;;
            yield format_message_stop ;;
            raise e)%gen
       | StopAsyncIteration | ExceptionClass => Some
           (hc <- get_has_content ;;
            (if negb hc then yield (format_content_block_stop 0) else ret tt) ;;
            yield (format_message_delta (PStr "error") PNone) ;;
            yield format_message_stop ;;
            raise e)%gen
       | OtherBaseException => None
       end).

(** The generator past the type guard, lines 162-223. *)
Definition lifecycle (message_id model : string) : gen unit :=
  try_finally
    (try_except
       (yield (format_message_start message_id model "assistant") ;;
        yield (format_content_block_start 0) ;;
        set_has_content false ;;
        drain_and_close)%gen
       (fun e =>
          match class_of e with
          | CancelledError => Some (raise e)
          | StopAsyncIteration | ExceptionClass => Some
              (yield (format_error "internal_server_error" (str_of e)))
          | OtherBaseException => None
          end))
    (yield format_done).

Definition stream_claude_response (claude_response_iterator : response)
  (message_id model : string) : stream_result :=
  match claude_response_iterator with
  | NotAsyncIterable _ =>
      run (yield (format_error "internal_server_error"
                    "Invalid response type from Claude client") ;;
           yield format_done)%gen []
  | AsyncIterable it => run (lifecycle message_id model) it
  end.

(** ** [stream_anthropic_message_response] *)

(** [async for chunk in inner: yield chunk]: every frame of the inner
    generator is yielded again. *)
Fixpoint yield_each (inner_frames : list string) : gen unit :=
  match inner_frames with
  | [] => ret tt
  | chunk :: rest => (yield chunk ;; yield_each rest)%gen
  end.

(** The loop over a generator observed as [inner]; the exception the inner
    generator ends with leaves the loop and the function. *)
Definition reyield (inner : stream_result) : gen unit :=
  (yield_each (frames inner) ;;
   match propagated inner with
   | Some e => raise e
   | None => ret tt
   end)%gen.

Definition stream_anthropic_message_response
  (claude_response_iterator : response) (message_id model : string)
  : stream_result :=
  let inner :=
    stream_claude_response claude_response_iterator message_id model in
  run (reyield inner) (unconsumed inner).

Arguments format_data_only : simpl never.
Arguments format_message_start : simpl never.
Arguments format_content_block_start : simpl never.
Arguments format_content_block_delta : simpl never.
Arguments format_content_block_stop : simpl never.
Arguments format_message_delta : simpl never.
Arguments format_message_stop : simpl never.
Arguments format_error : simpl never.
Arguments format_done : simpl never.

(** * Vocabulary of the statements *)

(** ** Reading a chunk *)

Definition chunk_type (chunk : pyval) : pyval :=
  match chunk with
  | PDict entries => dict_get entries "type" PNone
  | _ => PNone
  end.

(** [chunk.get("delta", {})]; a chunk that is no dictionary is never asked. *)
Definition chunk_delta (chunk : pyval) : pyval :=
  match chunk with
  | PDict entries => dict_get entries "delta" (PDict [])
  | _ => PDict []
  end.

Definition is_dict (v : pyval) : bool :=
  match v with
  | PDict _ => true
  | _ => false
  end.

Definition is_content_block_delta (chunk : pyval) : bool :=
  eq_str (chunk_type chunk) "content_block_delta".

Definition is_message_delta (chunk : pyval) : bool :=
  eq_str (chunk_type chunk) "message_delta".

(** [chunk["delta"].get(key, default)] where the delta is a dictionary. *)
Definition delta_field (chunk : pyval) (key : string) (default : pyval)
  : pyval :=
  match chunk_delta chunk with
  | PDict entries => dict_get entries key default
  | _ => default
  end.

Definition chunk_text (chunk : pyval) : pyval :=
  delta_field chunk "text" (PStr "").

(** The chunk is turned into a content frame. *)
Definition sends_text (chunk : pyval) : bool :=
  is_content_block_delta chunk && truthy (chunk_text chunk).

(** The chunk neither ends the loop nor raises: it is no [message_delta],
    and if it is a [content_block_delta] its delta has a [get] method. *)
Definition passes (chunk : pyval) : bool :=
  negb (is_message_delta chunk)
  && (negb (is_content_block_delta chunk) || is_dict (chunk_delta chunk)).

Definition content_frame_of (chunk : pyval) : list string :=
  if sends_text chunk then [format_content_block_delta (chunk_text chunk) 0]
  else [].

Definition content_frames (chunks : list pyval) : list string :=
  flat_map content_frame_of chunks.

Definition sends_content (chunks : list pyval) : bool :=
  existsb sends_text chunks.

(** ** From the loop to the whole stream *)

(** The frames that follow those of the loop, given [has_content] and the
    way the loop ended. *)
Definition closing_frames (hc : bool) (o : outcome unit) : list string :=
  match o with
  | Returned _ =>
      if hc then []
      else [format_content_block_stop 0;
            format_message_delta (PStr "end_turn") PNone;
            format_message_stop]
  | Raised e =>
      match class_of e with
      | CancelledError =>
          (if hc then [] else [format_content_block_stop 0])
          ++ [format_message_delta (PStr "cancelled") PNone;
              format_message_stop]
      | StopAsyncIteration | ExceptionClass =>
          (if hc then [] else [format_content_block_stop 0])
          ++ [format_message_delta (PStr "error") PNone;
              format_message_stop;
              format_error "internal_server_error" (str_of e)]
      | OtherBaseException => []
      end
  end%list.

(** The exception that leaves the generator. *)
Definition closing_exn (o : outcome unit) : option exn :=
  match o with
  | Returned _ => None
  | Raised e =>
      match class_of e with
      | StopAsyncIteration | ExceptionClass => None
      | _ => Some e
      end
  end.

(** ** Frames with an event line *)

Definition is_event_frame (frame : string) : Prop :=
  exists data, frame = format_data_only data.

(** ** Reading a frame back *)

Fixpoint strip_prefix (p s : string) : option string :=
  match p, s with
  | EmptyString, _ => Some s
  | String a p', String b s' =>
      if Ascii.eqb a b then strip_prefix p' s' else None
  | String _ _, EmptyString => None
  end.

Fixpoint first_line (s : string) : string :=
  match s with
  | EmptyString => EmptyString
  | String c rest =>
      if Ascii.eqb c "010"%char then EmptyString
      else String c (first_line rest)
  end.

(** The value of the [event:] line of a frame that starts with one. *)
Definition event_type (frame : string) : option string :=
  option_map first_line (strip_prefix "event: " frame).

(** [infix p s]: [p] occurs in [s]. *)
Fixpoint infix (p s : string) : bool :=
  match strip_prefix p s with
  | Some _ => true
  | None =>
      match s with
      | EmptyString => false
      | String _ rest => infix p rest
      end
  end.

Inductive frame_kind : Type :=
| KMessageStart
| KContentBlockStart
| KContentBlockDelta
| KContentBlockStop
| KMessageDelta
| KMessageStop
| KDone
| KOther.

Definition kind_of_event (name : string) : frame_kind :=
  if String.eqb name "message_start" then KMessageStart
  else if String.eqb name "content_block_start" then KContentBlockStart
  else if String.eqb name "content_block_delta" then KContentBlockDelta
  else if String.eqb name "content_block_stop" then KContentBlockStop
  else if String.eqb name "message_delta" then KMessageDelta
  else if String.eqb name "message_stop" then KMessageStop
  else KOther.

Definition kind_of (frame : string) : frame_kind :=
  if String.eqb frame format_done then KDone
  else
    match event_type frame with
    | Some name => kind_of_event name
    | None => KOther
    end.

(** ** The lifecycle grammar

    [message_start, content_block_start, content_block_delta*,
     content_block_stop, message_delta, message_stop], read by an automaton
    whose stages are the positions between two frames. *)

Inductive stage : Type :=
| Initial
| Started
| InBlock
| BlockStopped
| Closing
| Stopped.

Definition next_stage (q : stage) (k : frame_kind) : option stage :=
  match q, k with
  | Initial, KMessageStart => Some Started
  | Started, KContentBlockStart => Some InBlock
  | InBlock, KContentBlockDelta => Some InBlock
  | InBlock, KContentBlockStop => Some BlockStopped
  | BlockStopped, KMessageDelta => Some Closing
  | Closing, KMessageStop => Some Stopped
  | _, _ => None
  end.

(** [ks] is, from stage [q] on, a prefix of the grammar followed by one
    [KDone] and nothing more. *)
Fixpoint prefix_then_done (q : stage) (ks : list frame_kind) : bool :=
  match ks with
  | [] => false
  | k :: rest =>
      match k, rest with
      | KDone, [] => true
      | _, _ =>
          match next_stage q k with
          | Some q' => prefix_then_done q' rest
          | None => false
          end
      end
  end.

Definition follows_grammar (fs : list string) : bool :=
  prefix_then_done Initial (map kind_of fs).

(** ** Chunks and exceptions of the examples *)

(** A [content_block_delta] chunk that carries the text [t]. *)
Definition text_chunk (t : string) : pyval :=
  PDict [("type", PStr "content_block_delta");
         ("index", PInt 0);
         ("delta", PDict [("type", PStr "text_delta"); ("text", PStr t)])].

(** A [message_delta] chunk with the given stop reason. *)
Definition stop_chunk (stop_reason : string) : pyval :=
  PDict [("type", PStr "message_delta");
         ("delta", PDict [("stop_reason", PStr stop_reason);
                          ("stop_sequence", PNone)]);
         ("usage", PDict [("output_tokens", PInt 7)])].

Definition boom : exn := mkExn ExceptionClass "boom".

Definition cancellation : exn := mkExn CancelledError "".

(** The sentinel as the spec writes it. *)
Definition done_literal : string := "data: [DONE]" ++ nl ++ nl.

(** ** Ways for the drain to end *)

(** [ends_in_order it sent]: from a point where [sent] tells whether a
    content frame went out, the upstream [it] ends in one of these ways:
    it is exhausted after chunks that pass (the list ends, or [__anext__]
    raises [StopAsyncIteration]); a [message_delta] chunk with a readable
    delta comes after a content frame; a cancellation comes before any
    content frame; an exception outside [Exception] comes. *)
Fixpoint ends_in_order (it : list anext_result) (sent : bool) : bool :=
  match it with
  | [] => true
  | ARaise e :: _ =>
      match class_of e with
      | CancelledError => negb sent
      | StopAsyncIteration => true
      | ExceptionClass => false
      | OtherBaseException => true
      end
  | AYield chunk :: it' =>
      if passes chunk then ends_in_order it' (sent || sends_text chunk)
      else is_message_delta chunk && is_dict (chunk_delta chunk) && sent
  end.

(** ** Text deltas *)

(** The chunk is a [content_block_delta] whose delta holds the text [t]. *)
Definition carries_text (chunk : pyval) (t : string) : Prop :=
  is_content_block_delta chunk = true
  /\ is_dict (chunk_delta chunk) = true
  /\ chunk_text chunk = PStr t.

Definition nonempty (t : string) : bool := negb (String.eqb t "").

Definition text_frame (t : string) : string :=
  format_content_block_delta (PStr t) 0.

Definition is_delta_kind (k : frame_kind) : bool :=
  match k with
  | KContentBlockDelta => true
  | _ => false
  end.

(** The [content_block_delta] frames among [fs], in their order. *)
Definition delta_frames (fs : list string) : list string :=
  filter (fun f => is_delta_kind (kind_of f)) fs.

(** ** Comparing escapes *)

(** [differ a b]: the strings [a] and [b] disagree at a position that both
    have. *)
Fixpoint differ (a b : string) : bool :=
  match a, b with
  | String x a', String y b' => negb (Ascii.eqb x y) || differ a' b'
  | _, _ => false
  end.

(** The 256 characters. *)
Definition all_ascii : list ascii := map ascii_of_nat (seq 0 256).

(** The escapes of two characters are told apart: the characters are the
    same, or their escapes disagree at a position that both have. *)
Definition escapes_apart (a b : ascii) : bool :=
  Ascii.eqb a b || differ (escape_ascii a) (escape_ascii b).

(** ** The text of a frame on the wire *)

(** A character of [' '..'~']. *)
Definition printable (c : ascii) : bool :=
  Nat.leb 32 (nat_of_ascii c) && Nat.leb (nat_of_ascii c) 126.

Fixpoint all_printable (s : string) : bool :=
  match s with
  | EmptyString => true
  | String c rest => printable c && all_printable rest
  end.

(** The number of line feeds in [s]. *)
Fixpoint line_feeds (s : string) : nat :=
  match s with
  | EmptyString => 0
  | String c rest =>
      (if Ascii.eqb c "010"%char then 1 else 0) + line_feeds rest
  end.

(** A frame of two lines and a blank one: [event: t], [data: j], where
    neither [t] nor [j] leaves [' '..'~']. *)
Definition sse_frame (frame : string) : Prop :=
  exists t j,
    frame = "event: " ++ t ++ nl ++ "data: " ++ j ++ nl ++ nl
    /\ all_printable t = true
    /\ all_printable j = true.

(** The escape of [c] stays within [' '..'~']. *)
Definition escape_printable (c : ascii) : bool :=
  all_printable (escape_ascii c).

(** The escape of [c] does not start with the double quote. *)
Definition escape_not_quote (c : ascii) : bool :=
  differ (escape_ascii c) dq.

(** ** Chunks without effect *)

(** The chunk passes and gets no frame: it is no dictionary, or its type is
    neither [content_block_delta] nor [message_delta], or it is a
    [content_block_delta] whose text is missing or false in a test. *)
Definition silent (chunk : pyval) : bool :=
  passes chunk && negb (sends_text chunk).

(** Two runs of a generator body that differ at most in what is left of
    the upstream. *)
Definition same_run {A : Type}
  (r1 r2 : list string * locals * outcome A) : Prop :=
  fst (fst r1) = fst (fst r2)
  /\ has_content (snd (fst r1)) = has_content (snd (fst r2))
  /\ snd r1 = snd r2.

Definition keyboard_interrupt : exn := mkExn OtherBaseException "".

(** ** Reading the wire back *)

(** The text on the wire: the frames one after the other. *)
Definition wire (fs : list string) : string :=
  concat_map (fun f => f) fs.

(** [cut_frames s cur]: the pieces of [cur ++ s] that end with a blank
    line, that is with two line feeds in a row, and what is left after the
    last of them, if it is not empty.  This is how a client of an event
    stream finds the frames. *)
Fixpoint cut_frames (s cur : string) : list string :=
  match s with
  | EmptyString =>
      match cur with
      | EmptyString => []
      | _ => [cur]
      end
  | String c rest =>
      match rest with
      | EmptyString => [cur ++ String c EmptyString]
      | String d rest' =>
          if Ascii.eqb c "010"%char && Ascii.eqb d "010"%char
          then (cur ++ nl ++ nl) :: cut_frames rest' EmptyString
          else cut_frames rest (cur ++ String c EmptyString)
      end
  end.

(** ** The chunks before the end of the drain *)

(** The chunks the iterator yields before its first item that is not a
    chunk that passes. *)
Fixpoint passing_prefix (it : list anext_result) : list pyval :=
  match it with
  | AYield chunk :: it' =>
      if passes chunk then chunk :: passing_prefix it' else []
  | _ => []
  end.

(** ** The closing frames as they go on the wire *)

(** The JSON text of a string of plain characters: [s] between double
    quotes. *)
Definition quoted (s : string) : string := dq ++ s ++ dq.

Definition content_block_stop_text : string :=
  "event: content_block_stop" ++ nl
  ++ "data: {" ++ quoted "type" ++ ":" ++ quoted "content_block_stop" ++ ","
  ++ quoted "index" ++ ":0}" ++ nl ++ nl.

(** The [message_delta] frame whose delta holds the JSON texts
    [stop_reason] and [stop_sequence]. *)
Definition message_delta_text (stop_reason stop_sequence : string) : string :=
  "event: message_delta" ++ nl
  ++ "data: {" ++ quoted "type" ++ ":" ++ quoted "message_delta" ++ ","
  ++ quoted "delta" ++ ":{" ++ quoted "stop_reason" ++ ":" ++ stop_reason
  ++ "," ++ quoted "stop_sequence" ++ ":" ++ stop_sequence ++ "},"
  ++ quoted "usage" ++ ":{" ++ quoted "output_tokens" ++ ":0}}" ++ nl ++ nl.

Definition message_stop_text : string :=
  "event: message_stop" ++ nl
  ++ "data: {" ++ quoted "type" ++ ":" ++ quoted "message_stop" ++ "}"
  ++ nl ++ nl.

(** The error frame for an error type and a message. *)
Definition error_text (error_type message : string) : string :=
  "event: unknown" ++ nl
  ++ "data: {" ++ quoted "error" ++ ":{"
  ++ quoted "type" ++ ":" ++ encode_basestring_ascii error_type ++ ","
  ++ quoted "message" ++ ":" ++ encode_basestring_ascii message
  ++ "}}" ++ nl ++ nl.

(** The [content_block_delta] frame for the text [t]. *)
Definition content_block_delta_text (t : string) : string :=
  "event: content_block_delta" ++ nl
  ++ "data: {" ++ quoted "type" ++ ":" ++ quoted "content_block_delta" ++ ","
  ++ quoted "index" ++ ":0," ++ quoted "delta" ++ ":{"
  ++ quoted "type" ++ ":" ++ quoted "text_delta" ++ ","
  ++ quoted "text" ++ ":" ++ encode_basestring_ascii t ++ "}}" ++ nl ++ nl.

(** A [message_delta] chunk whose [delta] entry is [None]. *)
Definition null_delta_chunk : pyval :=
  PDict [("type", PStr "message_delta"); ("delta", PNone)].

Arguments content_block_stop_text : simpl never.
Arguments message_delta_text : simpl never.
Arguments message_stop_text : simpl never.
Arguments error_text : simpl never.
Arguments content_block_delta_text : simpl never.

(** * Properties *)

(** ** The loop body, case by case *)

Lemma eq_str_true (v : pyval) (s : string) :
  eq_str v s = true -> v = PStr s.
Proof.
  destruct v; simpl; try discriminate.
  intros H. apply String.eqb_eq in H. now subst.
Qed.

Lemma content_block_delta_not_message_delta (chunk : pyval) :
  is_content_block_delta chunk = true -> is_message_delta chunk = false.
Proof.
  unfold is_content_block_delta, is_message_delta. intros H.
  apply eq_str_true in H. rewrite H. reflexivity.
Qed.

Lemma process_chunk_passes (chunk : pyval) (st : locals) :
  passes chunk = true ->
  process_chunk chunk st =
  (content_frame_of chunk,
   mkLocals (upstream st) (has_content st || sends_text chunk),
   Returned LoopNext).
Proof.
  destruct st as [up hc]. unfold passes, content_frame_of, sends_text.
  unfold chunk_text, delta_field, is_message_delta, is_content_block_delta.
  destruct chunk as [| b | z | s | items | entries]; simpl;
    try (intros _; now rewrite orb_false_r).
  destruct (eq_str (dict_get entries "type" PNone) "content_block_delta") eqn:Hc.
  - apply eq_str_true in Hc. rewrite Hc. simpl.
    destruct (dict_get entries "delta" (PDict [])) as [| | | | |d] eqn:Hd;
      simpl; try discriminate.
    intros _. unfold bind, method_get, ret. simpl.
    destruct (truthy (dict_get d "text" (PStr ""))); simpl.
    + now rewrite orb_true_r.
    + now rewrite orb_false_r.
  - destruct (eq_str (dict_get entries "type" PNone) "message_delta"); simpl.
    + discriminate.
    + intros _. unfold ret. now rewrite orb_false_r.
Qed.

Lemma process_chunk_message_delta (chunk : pyval) (st : locals) :
  is_message_delta chunk = true ->
  is_dict (chunk_delta chunk) = true ->
  process_chunk chunk st =
  ([format_content_block_stop 0;
    format_message_delta (delta_field chunk "stop_reason" (PStr "end_turn"))
      (delta_field chunk "stop_sequence" PNone);
    format_message_stop],
   st, Returned LoopBreak).
Proof.
  unfold is_message_delta, delta_field.
  destruct chunk as [| b | z | s | items | entries]; simpl; try discriminate.
  intros Hm. pose proof (eq_str_true _ _ Hm) as Ht. rewrite Ht. simpl.
  destruct (dict_get entries "delta" (PDict [])) as [| | | | |d];
    simpl; try discriminate.
  intros _. reflexivity.
Qed.

Lemma process_chunk_bad_delta (chunk : pyval) (st : locals) :
  is_content_block_delta chunk || is_message_delta chunk = true ->
  is_dict (chunk_delta chunk) = false ->
  process_chunk chunk st =
  (if is_message_delta chunk then [format_content_block_stop 0] else [],
   st, Raised (AttributeError (chunk_delta chunk) "get")).
Proof.
  unfold is_message_delta, is_content_block_delta.
  destruct chunk as [| b | z | s | items | entries]; simpl; try discriminate.
  destruct (eq_str (dict_get entries "type" PNone) "content_block_delta") eqn:Hc.
  - apply eq_str_true in Hc. rewrite Hc. simpl.
    destruct (dict_get entries "delta" (PDict [])) as [| | | | |d];
      simpl; try discriminate; intros _ _; reflexivity.
  - simpl. intros Hm. rewrite Hm.
    destruct (dict_get entries "delta" (PDict [])) as [| | | | |d];
      simpl; try discriminate; intros _; reflexivity.
Qed.

(** ** The loop *)

(** The loop sets [upstream] before it reads it. *)
Lemma async_for_from_upstream (it up up' : list anext_result) (hc : bool) :
  async_for_from it process_chunk (mkLocals up hc) =
  async_for_from it process_chunk (mkLocals up' hc).
Proof.
  destruct it as [| r it']; reflexivity.
Qed.

(** An [__anext__] that raises: [StopAsyncIteration] ends the loop, any
    other exception leaves it. *)
Lemma async_for_step_raise (e : exn) (post : list anext_result)
  (st : locals) :
  async_for_from (ARaise e :: post) process_chunk st
  = ([], mkLocals post (has_content st),
     match class_of e with
     | StopAsyncIteration => Returned tt
     | _ => Raised e
     end).
Proof.
  simpl. unfold bind, set_upstream. simpl. destruct (class_of e); reflexivity.
Qed.

(** Chunks that pass add their content frames and raise [has_content]. *)
Lemma async_for_passes (chunks : list pyval) (rest : list anext_result) :
  forallb passes chunks = true ->
  forall st,
    async_for_from (map AYield chunks ++ rest) process_chunk st =
    match async_for_from rest process_chunk
            (mkLocals rest (has_content st || sends_content chunks)) with
    | (fs, st', o) => ((content_frames chunks ++ fs)%list, st', o)
    end.
Proof.
  induction chunks as [| c chunks IH]; simpl; intros Hp st.
  - rewrite orb_false_r. destruct st as [up hc]. simpl.
    rewrite (async_for_from_upstream rest up rest).
    now destruct (async_for_from rest process_chunk (mkLocals rest hc)) as [[fs st'] o].
  - apply andb_prop in Hp. destruct Hp as [Hc Hp].
    unfold bind at 1. unfold set_upstream at 1. simpl.
    unfold bind at 1. rewrite (process_chunk_passes c _ Hc). simpl.
    rewrite (IH Hp). simpl. rewrite orb_assoc.
    destruct (async_for_from rest process_chunk _) as [[fs st'] o].
    unfold content_frames. simpl. now rewrite app_assoc.
Qed.

(** Every chunk is of one of three sorts: it passes, it is a
    [message_delta] whose delta can be read, or it is a delta chunk whose
    [delta] entry has no [get] method. *)
Lemma chunk_cases (chunk : pyval) :
  passes chunk = true
  \/ (is_message_delta chunk = true /\ is_dict (chunk_delta chunk) = true)
  \/ (is_content_block_delta chunk || is_message_delta chunk = true
      /\ is_dict (chunk_delta chunk) = false).
Proof.
  unfold passes.
  destruct (is_content_block_delta chunk) eqn:Hc.
  - rewrite (content_block_delta_not_message_delta _ Hc). simpl.
    destruct (is_dict (chunk_delta chunk)); auto.
  - destruct (is_message_delta chunk); simpl; auto.
    destruct (is_dict (chunk_delta chunk)); auto.
Qed.

(** ** From the loop to the whole stream *)

Lemma lifecycle_run (it : list anext_result) (message_id model : string)
  (fs : list string) (st' : locals) (o : outcome unit) :
  async_for_from it process_chunk (mkLocals it false) = (fs, st', o) ->
  stream_claude_response (AsyncIterable it) message_id model =
  mkResult
    ([format_message_start message_id model "assistant";
      format_content_block_start 0]
     ++ fs ++ closing_frames (has_content st') o ++ [format_done])%list
    (upstream st') (closing_exn o).
Proof.
  intros Hloop.
  unfold stream_claude_response, run, lifecycle, try_finally, try_except.
  unfold drain_and_close, try_except, bind, async_for, yield, set_has_content.
  simpl. rewrite Hloop.
  destruct st' as [up hc]. destruct o as [[] | [cls msg]]; simpl.
  - destruct hc; simpl; repeat (rewrite <- app_assoc; simpl); reflexivity.
  - destruct cls; destruct hc; simpl;
      repeat (rewrite <- app_assoc; simpl); reflexivity.
Qed.

(** ** Every frame but the sentinel has an event line *)

Lemma event_frame_not_done (frame : string) :
  is_event_frame frame -> frame <> format_done.
Proof.
  intros [data ->]. unfold format_data_only, format_done. simpl. discriminate.
Qed.

Lemma is_event_format_message_start id model role :
  is_event_frame (format_message_start id model role).
Proof. eexists. reflexivity. Qed.

Lemma is_event_format_content_block_start index :
  is_event_frame (format_content_block_start index).
Proof. eexists. reflexivity. Qed.

Lemma is_event_format_content_block_delta text index :
  is_event_frame (format_content_block_delta text index).
Proof. eexists. reflexivity. Qed.

Lemma is_event_format_content_block_stop index :
  is_event_frame (format_content_block_stop index).
Proof. eexists. reflexivity. Qed.

Lemma is_event_format_message_delta stop_reason stop_sequence :
  is_event_frame (format_message_delta stop_reason stop_sequence).
Proof. eexists. reflexivity. Qed.

Lemma is_event_format_message_stop : is_event_frame format_message_stop.
Proof. eexists. reflexivity. Qed.

Lemma is_event_format_error error_type message :
  is_event_frame (format_error error_type message).
Proof. eexists. reflexivity. Qed.

Create HintDb frames.
#[local] Hint Resolve is_event_format_message_start
  is_event_format_content_block_start is_event_format_content_block_delta
  is_event_format_content_block_stop is_event_format_message_delta
  is_event_format_message_stop is_event_format_error : frames.
#[local] Hint Constructors Forall : frames.

Lemma process_chunk_events (chunk : pyval) (st : locals) :
  Forall is_event_frame (fst (fst (process_chunk chunk st))).
Proof.
  destruct (chunk_cases chunk) as [Hp | [[Hm Hd] | [Ht Hd]]].
  - rewrite (process_chunk_passes _ _ Hp). simpl. unfold content_frame_of.
    destruct (sends_text chunk); auto with frames.
  - rewrite (process_chunk_message_delta _ _ Hm Hd). simpl. auto with frames.
  - rewrite (process_chunk_bad_delta _ _ Ht Hd). simpl.
    destruct (is_message_delta chunk); auto with frames.
Qed.

Lemma async_for_events (it : list anext_result) :
  forall st,
    Forall is_event_frame (fst (fst (async_for_from it process_chunk st))).
Proof.
  induction it as [| r it' IH]; intros st; simpl.
  - constructor.
  - unfold bind at 1. unfold set_upstream at 1. simpl.
    destruct r as [chunk | e]; simpl.
    + unfold bind.
      pose proof (process_chunk_events chunk
                    (mkLocals it' (has_content st))) as Hc.
      destruct (process_chunk chunk _) as [[fs st1] [c | e]]; simpl in *.
      * destruct c; simpl.
        -- specialize (IH st1).
           destruct (async_for_from it' process_chunk st1) as [[fs' st2] o].
           simpl in *. apply Forall_app. split; assumption.
        -- now rewrite app_nil_r.
      * assumption.
    + destruct (class_of e); constructor.
Qed.

Lemma closing_frames_events (hc : bool) (o : outcome unit) :
  Forall is_event_frame (closing_frames hc o).
Proof.
  destruct o as [[] | [cls msg]]; simpl.
  - destruct hc; auto with frames.
  - destruct cls; destruct hc; simpl; auto with frames.
Qed.

(** ** Kinds of the frames *)

Lemma kind_of_format_message_start id model role :
  kind_of (format_message_start id model role) = KMessageStart.
Proof. reflexivity. Qed.

Lemma kind_of_format_content_block_start index :
  kind_of (format_content_block_start index) = KContentBlockStart.
Proof. reflexivity. Qed.

Lemma kind_of_format_content_block_delta text index :
  kind_of (format_content_block_delta text index) = KContentBlockDelta.
Proof. reflexivity. Qed.

Lemma kind_of_format_content_block_stop index :
  kind_of (format_content_block_stop index) = KContentBlockStop.
Proof. reflexivity. Qed.

Lemma kind_of_format_message_delta stop_reason stop_sequence :
  kind_of (format_message_delta stop_reason stop_sequence) = KMessageDelta.
Proof. reflexivity. Qed.

Lemma kind_of_format_message_stop : kind_of format_message_stop = KMessageStop.
Proof. reflexivity. Qed.

Lemma kind_of_format_error error_type message :
  kind_of (format_error error_type message) = KOther.
Proof. reflexivity. Qed.

Lemma kind_of_format_done : kind_of format_done = KDone.
Proof. reflexivity. Qed.

Lemma append_assoc (a b c : string) : (a ++ b) ++ c = a ++ (b ++ c).
Proof.
  induction a as [| x a IH]; simpl; [reflexivity | now rewrite IH].
Qed.

(** ** What the formatter writes *)

Lemma format_content_block_stop_text :
  format_content_block_stop 0 = content_block_stop_text.
Proof. reflexivity. Qed.

Lemma format_message_stop_text : format_message_stop = message_stop_text.
Proof. reflexivity. Qed.

Lemma format_done_text : format_done = done_literal.
Proof. reflexivity. Qed.

Lemma format_message_delta_text (stop_reason stop_sequence : pyval) :
  format_message_delta stop_reason stop_sequence
  = message_delta_text (json_dumps stop_reason) (json_dumps stop_sequence).
Proof.
  unfold format_message_delta, format_data_only, message_delta_text, quoted.
  cbn [dict_get String.eqb Ascii.eqb Bool.eqb py_str json_dumps].
  cbn [encode_basestring_ascii string_map list_ascii_of_string concat_map
       escape_ascii].
  repeat (rewrite ?append_assoc; simpl). reflexivity.
Qed.

Lemma format_error_text (error_type message : string) :
  format_error error_type message = error_text error_type message.
Proof.
  unfold format_error, format_data_only, StreamingError_model_dump.
  unfold error_text, quoted.
  cbn [dict_get String.eqb Ascii.eqb Bool.eqb py_str json_dumps].
  cbn [encode_basestring_ascii string_map list_ascii_of_string concat_map
       escape_ascii].
  repeat (rewrite ?append_assoc; simpl). reflexivity.
Qed.

Lemma format_content_block_delta_text (t : string) :
  format_content_block_delta (PStr t) 0 = content_block_delta_text t.
Proof.
  unfold format_content_block_delta, format_data_only.
  unfold content_block_delta_text, quoted.
  cbn [dict_get String.eqb Ascii.eqb Bool.eqb py_str json_dumps].
  cbn [encode_basestring_ascii string_map list_ascii_of_string concat_map
       escape_ascii].
  repeat (rewrite ?append_assoc; simpl). reflexivity.
Qed.

Ltac wire_text :=
  rewrite ?format_content_block_stop_text, ?format_message_stop_text,
    ?format_message_delta_text, ?format_error_text, ?format_done_text.


(** ** The done sentinel *)

Lemma sentinel_after_events (body : list string) :
  Forall is_event_frame body ->
  last (body ++ [format_done]) "" = format_done
  /\ count_occ string_dec (body ++ [format_done]) format_done = 1.
Proof.
  intros Hev. split.
  - apply last_last.
  - rewrite count_occ_app. simpl.
    destruct (string_dec format_done format_done) as [_ | Hne];
      [| now elim Hne].
    assert (Hnot : ~ In format_done body).
    { intros Hin. rewrite Forall_forall in Hev.
      now apply (event_frame_not_done _ (Hev _ Hin)). }
    apply (count_occ_not_In string_dec) in Hnot. rewrite Hnot. reflexivity.
Qed.

(** C2.  Whatever the first argument is (an iterator that is exhausted,
    that raises an exception of any class at any point, or a value that is
    no asynchronous iterable), the last frame of [stream_claude_response] is
    the string [data: [DONE]] followed by two line feeds, and that string
    occurs exactly once among the frames. *)
Theorem done_sentinel_last_and_once
  (claude_response_iterator : response) (message_id model : string) :
  let fs :=
    frames (stream_claude_response claude_response_iterator message_id model)
  in
  last fs "" = done_literal /\ count_occ string_dec fs done_literal = 1.
Proof.
  change done_literal with format_done.
  destruct claude_response_iterator as [it | v]; cbv zeta.
  - destruct (async_for_from it process_chunk (mkLocals it false))
      as [[fs st'] o] eqn:Hloop.
    rewrite (lifecycle_run _ message_id model _ _ _ Hloop).
    cbn [frames]. rewrite !app_assoc. apply sentinel_after_events.
    pose proof (async_for_events it (mkLocals it false)) as Hfs.
    rewrite Hloop in Hfs. simpl in Hfs.
    apply Forall_app. split; [apply Forall_app; split |].
    + auto with frames.
    + exact Hfs.
    + apply closing_frames_events.
  - apply (sentinel_after_events
             [format_error "internal_server_error"
                "Invalid response type from Claude client"]).
    auto with frames.
Qed.

(** ** The type guard *)

(** C7.  For a first argument without [__aiter__] the generator yields two
    frames and returns: the error frame of type [internal_server_error]
    whose message is "Invalid response type from Claude client", then the
    done sentinel.  Neither is a [message_start] frame and no exception
    reaches the consumer. *)
Theorem invalid_input_two_frames (v : pyval) (message_id model : string) :
  let r := stream_claude_response (NotAsyncIterable v) message_id model in
  frames r =
    [format_error "internal_server_error"
       "Invalid response type from Claude client";
     done_literal]
  /\ infix (dq ++ "type" ++ dq ++ ":" ++ dq ++ "internal_server_error" ++ dq)
       (nth 0 (frames r) "") = true
  /\ infix "Invalid response type" (nth 0 (frames r) "") = true
  /\ Forall (fun f => kind_of f <> KMessageStart) (frames r)
  /\ propagated r = None.
Proof.
  cbv zeta. repeat split.
  repeat constructor; discriminate.
Qed.

(** ** The error frame *)

Lemma format_data_only_event_line (data : list (string * pyval)) :
  exists rest, format_data_only data = "event: " ++ rest.
Proof. eexists. reflexivity. Qed.

(** C9, as the source has it.  [format_error] returns a frame with an event
    line, as every frame of [format_data_only] is.  The dumped error model
    has no [type] entry, so the line reads [event: unknown]: the default of
    [format_data_only] is what [format_error] runs into.  The data line
    holds the compact JSON text of
    [{"error":{"type":error_type,"message":message}}]. *)
Theorem format_error_frame (error_type message : string) :
  format_error error_type message =
    "event: unknown" ++ nl
    ++ "data: {" ++ dq ++ "error" ++ dq ++ ":{"
    ++ dq ++ "type" ++ dq ++ ":" ++ encode_basestring_ascii error_type ++ ","
    ++ dq ++ "message" ++ dq ++ ":" ++ encode_basestring_ascii message
    ++ "}}" ++ nl ++ nl
  /\ event_type (format_error error_type message) = Some "unknown".
Proof.
  split; [| reflexivity].
  unfold format_error, format_data_only, StreamingError_model_dump.
  cbn [dict_get String.eqb Ascii.eqb Bool.eqb py_str json_dumps].
  cbn [encode_basestring_ascii string_map list_ascii_of_string concat_map
       escape_ascii].
  simpl. rewrite !append_assoc. simpl. rewrite !append_assoc. reflexivity.
Qed.

(** C9, as the claim has it, fails: the frame of an error is not the
    data-only frame around its JSON body, and its event line carries the
    default [unknown]. *)
Lemma format_error_not_data_only :
  format_error "internal_server_error" "boom" <>
    "data: "
    ++ json_dumps (PDict (StreamingError_model_dump
                            "internal_server_error" "boom"))
    ++ nl ++ nl
  /\ event_type (format_error "internal_server_error" "boom")
     = Some "unknown".
Proof.
  split; [discriminate | reflexivity].
Qed.

(** ** The second entry point *)

Lemma yield_each_run (fs : list string) (st : locals) :
  yield_each fs st = (fs, st, Returned tt).
Proof.
  induction fs as [| f fs IH]; simpl; [reflexivity |].
  unfold bind, yield. now rewrite IH.
Qed.

(** C10.  On every first argument, message id and model name,
    [stream_anthropic_message_response] yields the frames of
    [stream_claude_response] in the same order, leaves the same part of the
    upstream unconsumed and ends with the same exception or with none. *)
Theorem stream_anthropic_message_response_same
  (claude_response_iterator : response) (message_id model : string) :
  stream_anthropic_message_response claude_response_iterator message_id model
  = stream_claude_response claude_response_iterator message_id model.
Proof.
  unfold stream_anthropic_message_response, reyield, run, bind.
  destruct (stream_claude_response claude_response_iterator message_id model)
    as [fs rest [e |]]; cbn [frames unconsumed propagated];
    rewrite yield_each_run; simpl; now rewrite app_nil_r.
Qed.

(** ** One round of the loop at the end of the chunks that pass *)

Lemma async_for_exhausted (st : locals) :
  async_for_from [] process_chunk st
  = ([], mkLocals [] (has_content st), Returned tt).
Proof. reflexivity. Qed.

Lemma async_for_raise (e : exn) (post : list anext_result) (st : locals) :
  class_of e <> StopAsyncIteration ->
  async_for_from (ARaise e :: post) process_chunk st
  = ([], mkLocals post (has_content st), Raised e).
Proof.
  intros Hc. rewrite async_for_step_raise.
  destruct (class_of e); try reflexivity. now elim Hc.
Qed.

Lemma async_for_message_delta (chunk : pyval) (post : list anext_result)
  (st : locals) :
  is_message_delta chunk = true ->
  is_dict (chunk_delta chunk) = true ->
  async_for_from (AYield chunk :: post) process_chunk st
  = ([format_content_block_stop 0;
      format_message_delta (delta_field chunk "stop_reason" (PStr "end_turn"))
        (delta_field chunk "stop_sequence" PNone);
      format_message_stop],
     mkLocals post (has_content st), Returned tt).
Proof.
  intros Hm Hd. simpl. unfold bind at 1. unfold set_upstream at 1. simpl.
  unfold bind at 1. rewrite (process_chunk_message_delta _ _ Hm Hd).
  reflexivity.
Qed.

(** ** The grammar *)

Lemma grammar_of_loop (it : list anext_result) :
  forall (sent : bool) (up : list anext_result),
    ends_in_order it sent = true ->
    match async_for_from it process_chunk (mkLocals up sent) with
    | (fs, st', o) =>
        prefix_then_done InBlock
          (map kind_of
             (fs ++ closing_frames (has_content st') o ++ [format_done]))
        = true
    end.
Proof.
  induction it as [| [chunk | e] it' IH]; intros sent up Hend.
  - rewrite async_for_exhausted. simpl. destruct sent; reflexivity.
  - simpl in Hend. destruct (passes chunk) eqn:Hp.
    + simpl. unfold bind at 1. unfold set_upstream at 1. simpl.
      unfold bind at 1. rewrite (process_chunk_passes _ _ Hp). simpl.
      specialize (IH (sent || sends_text chunk)%bool it' Hend).
      destruct (async_for_from it' process_chunk _) as [[fs st'] o].
      unfold content_frame_of. destruct (sends_text chunk); simpl; exact IH.
    + apply andb_prop in Hend. destruct Hend as [Hend Hsent].
      apply andb_prop in Hend. destruct Hend as [Hm Hd]. subst sent.
      rewrite (async_for_message_delta _ _ _ Hm Hd). reflexivity.
  - rewrite async_for_step_raise. destruct e as [cls msg].
    simpl in Hend |- *.
    destruct cls; destruct sent; try discriminate; reflexivity.
Qed.

(** C1, as the source has it.  When the upstream ends in order (it is
    exhausted, or a [message_delta] chunk follows a content frame, or a
    cancellation comes before any content frame, or an exception outside
    [Exception] comes), the frames are a prefix of the grammar followed by
    the done sentinel and nothing more. *)
Theorem grammar_when_ends_in_order
  (it : list anext_result) (message_id model : string) :
  ends_in_order it false = true ->
  follows_grammar
    (frames (stream_claude_response (AsyncIterable it) message_id model))
  = true.
Proof.
  intros Hend.
  pose proof (grammar_of_loop it false it Hend) as Hg.
  destruct (async_for_from it process_chunk (mkLocals it false))
    as [[fs st'] o] eqn:Hloop.
  rewrite (lifecycle_run _ message_id model _ _ _ Hloop).
  unfold follows_grammar. cbn [frames]. exact Hg.
Qed.

Lemma grammar_when_ends_in_order_witness :
  let it :=
    [AYield (text_chunk "Hello");
     AYield (PStr "stray");
     AYield (text_chunk "");
     AYield (stop_chunk "max_tokens");
     AYield (text_chunk "late")] in
  ends_in_order it false = true
  /\ follows_grammar
       (frames (stream_claude_response (AsyncIterable it) "msg_1" "claude"))
     = true.
Proof.
  cbv zeta. split; [reflexivity |].
  apply grammar_when_ends_in_order. reflexivity.
Defined.

(** C1, as the claim has it, fails: a cancellation after a content frame
    is answered with [message_delta] and [message_stop] and no
    [content_block_stop] before them. *)
Lemma cancelled_after_content_leaves_grammar :
  let r :=
    stream_claude_response
      (AsyncIterable [AYield (text_chunk "Hello"); ARaise cancellation])
      "msg_1" "claude" in
  map kind_of (frames r)
  = [KMessageStart; KContentBlockStart; KContentBlockDelta;
     KMessageDelta; KMessageStop; KDone]
  /\ follows_grammar (frames r) = false.
Proof.
  split; reflexivity.
Qed.

(** ** The stream after chunks that pass *)

Lemma stream_after_passing (chunks : list pyval) (rest : list anext_result)
  (message_id model : string) (fs : list string) (st' : locals)
  (o : outcome unit) :
  forallb passes chunks = true ->
  async_for_from rest process_chunk (mkLocals rest (sends_content chunks))
  = (fs, st', o) ->
  stream_claude_response (AsyncIterable (map AYield chunks ++ rest))
    message_id model
  = mkResult
      ([format_message_start message_id model "assistant";
        format_content_block_start 0]
       ++ content_frames chunks ++ fs
       ++ closing_frames (has_content st') o ++ [format_done])%list
      (upstream st') (closing_exn o).
Proof.
  intros Hp Hrest.
  pose proof (async_for_passes chunks rest Hp
                (mkLocals (map AYield chunks ++ rest) false)) as Hloop.
  simpl in Hloop. rewrite Hrest in Hloop.
  rewrite (lifecycle_run _ message_id model _ _ _ Hloop).
  now rewrite <- app_assoc.
Qed.

(** A content frame went out exactly when [sends_content] holds. *)
Lemma sends_content_frames (chunks : list pyval) :
  sends_content chunks = false <-> content_frames chunks = [].
Proof.
  unfold sends_content, content_frames.
  induction chunks as [| c chunks IH]; simpl; [tauto |].
  unfold content_frame_of at 1. destruct (sends_text c); simpl.
  - split; discriminate.
  - exact IH.
Qed.

(** ** Exhaustion *)

Lemma stream_exhausted (chunks : list pyval) (message_id model : string) :
  forallb passes chunks = true ->
  stream_claude_response (AsyncIterable (map AYield chunks)) message_id model
  = mkResult
      ([format_message_start message_id model "assistant";
        format_content_block_start 0]
       ++ content_frames chunks
       ++ (if sends_content chunks then []
           else [format_content_block_stop 0;
                 format_message_delta (PStr "end_turn") PNone;
                 format_message_stop])
       ++ [format_done])%list
      [] None.
Proof.
  intros Hp.
  rewrite <- (app_nil_r (map AYield chunks)).
  rewrite (stream_after_passing chunks [] message_id model _ _ _ Hp
             (async_for_exhausted _)).
  reflexivity.
Qed.

(** C4, as the source has it.  When the upstream is exhausted after chunks
    that pass (none is a [message_delta], none raises) and none of which
    was turned into a content frame, the message is still closed: after the
    two opening frames come [content_block_stop], the [message_delta] frame
    whose delta reads [{"stop_reason":"end_turn","stop_sequence":null}],
    [message_stop] and the done sentinel.  The closing is under
    [if not has_content]. *)
Theorem exhausted_without_content_closes
  (chunks : list pyval) (message_id model : string) :
  forallb passes chunks = true ->
  sends_content chunks = false ->
  stream_claude_response (AsyncIterable (map AYield chunks)) message_id model
  = mkResult
      [format_message_start message_id model "assistant";
       format_content_block_start 0;
       content_block_stop_text;
       message_delta_text (quoted "end_turn") "null";
       message_stop_text;
       done_literal]
      [] None.
Proof.
  intros Hp Hs. rewrite (stream_exhausted _ message_id model Hp), Hs.
  apply sends_content_frames in Hs. rewrite Hs. wire_text. reflexivity.
Qed.

Lemma exhausted_without_content_closes_witness :
  (forallb passes [PStr "stray"; text_chunk ""; PDict []] = true
   /\ sends_content [PStr "stray"; text_chunk ""; PDict []] = false)
  /\ stream_claude_response
       (AsyncIterable (map AYield [PStr "stray"; text_chunk ""; PDict []]))
       "msg_1" "claude"
     = mkResult
         [format_message_start "msg_1" "claude" "assistant";
          format_content_block_start 0;
          content_block_stop_text;
          message_delta_text (quoted "end_turn") "null";
          message_stop_text;
          done_literal]
         [] None.
Proof.
  split; [split; reflexivity |].
  apply (exhausted_without_content_closes
           [PStr "stray"; text_chunk ""; PDict []] "msg_1" "claude");
    reflexivity.
Defined.

(** C4, as the claim has it, fails: an upstream that is exhausted after a
    text delta and without a [message_delta] chunk is answered with the
    content frame and the done sentinel alone. *)
Lemma exhausted_after_content_not_closed :
  let r :=
    stream_claude_response (AsyncIterable [AYield (text_chunk "Hello")])
      "msg_1" "claude" in
  frames r
  = [format_message_start "msg_1" "claude" "assistant";
     format_content_block_start 0;
     text_frame "Hello";
     format_done]
  /\ ~ (exists before,
         frames r
         = (before ++ [format_content_block_stop 0;
                       format_message_delta (PStr "end_turn") PNone;
                       format_message_stop;
                       format_done])%list).
Proof.
  split; [reflexivity |].
  intros [before Heq].
  assert (Hin : In format_message_stop
                  (frames (stream_claude_response
                             (AsyncIterable [AYield (text_chunk "Hello")])
                             "msg_1" "claude"))).
  { rewrite Heq. apply in_or_app. right. simpl. auto. }
  simpl in Hin.
  destruct Hin as [H | [H | [H | [H | []]]]]; discriminate H.
Qed.

(** ** Cancellation *)

(** C5.  When the iterator raises a cancellation after chunks that pass,
    the frames are the two opening frames, the content frames,
    [content_block_stop] only if no content frame went out, the
    [message_delta] frame whose delta reads
    [{"stop_reason":"cancelled","stop_sequence":null}], [message_stop] and
    the done sentinel; the cancellation then reaches the consumer, and what
    the iterator had left is not consumed. *)
Theorem cancellation_during_drain
  (chunks : list pyval) (e : exn) (post : list anext_result)
  (message_id model : string) :
  forallb passes chunks = true ->
  class_of e = CancelledError ->
  stream_claude_response
    (AsyncIterable (map AYield chunks ++ ARaise e :: post)) message_id model
  = mkResult
      ([format_message_start message_id model "assistant";
        format_content_block_start 0]
       ++ content_frames chunks
       ++ (if sends_content chunks then [] else [content_block_stop_text])
       ++ [message_delta_text (quoted "cancelled") "null";
           message_stop_text;
           done_literal])%list
      post (Some e).
Proof.
  intros Hp Hc.
  assert (Hne : class_of e <> StopAsyncIteration)
    by (rewrite Hc; discriminate).
  rewrite (stream_after_passing chunks (ARaise e :: post) message_id model
             _ _ _ Hp (async_for_raise _ _ _ Hne)).
  simpl. rewrite Hc. repeat (rewrite <- app_assoc; simpl).
  wire_text. reflexivity.
Qed.

Lemma cancellation_during_drain_witness :
  (forallb passes [text_chunk "Hello"] = true
   /\ class_of cancellation = CancelledError)
  /\ stream_claude_response
       (AsyncIterable (map AYield [text_chunk "Hello"]
                       ++ ARaise cancellation :: [AYield (text_chunk "late")]))
       "msg_1" "claude"
     = mkResult
         [format_message_start "msg_1" "claude" "assistant";
          format_content_block_start 0;
          content_block_delta_text "Hello";
          message_delta_text (quoted "cancelled") "null";
          message_stop_text;
          done_literal]
         [AYield (text_chunk "late")] (Some cancellation).
Proof.
  split; [split; reflexivity |].
  apply (cancellation_during_drain [text_chunk "Hello"] cancellation
           [AYield (text_chunk "late")] "msg_1" "claude");
    reflexivity.
Defined.

(** ** An exception of the upstream *)

(** C3, as the source has it.  When the iterator raises an [Exception]
    (one that does not end the iteration as [StopAsyncIteration] does)
    after chunks that pass, the frames are the two opening frames, the
    content frames, [content_block_stop] only if no content frame went out,
    the [message_delta] frame whose delta reads
    [{"stop_reason":"error","stop_sequence":null}], [message_stop], the
    error frame of type [internal_server_error] with the text of the
    exception, and the done sentinel.  The outer handler keeps the
    exception: the generator returns and the consumer gets none. *)
Theorem exception_during_drain
  (chunks : list pyval) (e : exn) (post : list anext_result)
  (message_id model : string) :
  forallb passes chunks = true ->
  class_of e = ExceptionClass ->
  stream_claude_response
    (AsyncIterable (map AYield chunks ++ ARaise e :: post)) message_id model
  = mkResult
      ([format_message_start message_id model "assistant";
        format_content_block_start 0]
       ++ content_frames chunks
       ++ (if sends_content chunks then [] else [content_block_stop_text])
       ++ [message_delta_text (quoted "error") "null";
           message_stop_text;
           error_text "internal_server_error" (str_of e);
           done_literal])%list
      post None.
Proof.
  intros Hp Hc.
  assert (Hne : class_of e <> StopAsyncIteration)
    by (rewrite Hc; discriminate).
  rewrite (stream_after_passing chunks (ARaise e :: post) message_id model
             _ _ _ Hp (async_for_raise _ _ _ Hne)).
  simpl. rewrite Hc. repeat (rewrite <- app_assoc; simpl).
  wire_text. reflexivity.
Qed.

Lemma exception_during_drain_witness :
  (forallb passes [text_chunk "Hello"] = true
   /\ class_of boom = ExceptionClass)
  /\ stream_claude_response
       (AsyncIterable (map AYield [text_chunk "Hello"]
                       ++ ARaise boom :: [AYield (text_chunk "late")]))
       "msg_1" "claude"
     = mkResult
         [format_message_start "msg_1" "claude" "assistant";
          format_content_block_start 0;
          content_block_delta_text "Hello";
          message_delta_text (quoted "error") "null";
          message_stop_text;
          error_text "internal_server_error" "boom";
          done_literal]
         [AYield (text_chunk "late")] None.
Proof.
  split; [split; reflexivity |].
  apply (exception_during_drain [text_chunk "Hello"] boom
           [AYield (text_chunk "late")] "msg_1" "claude");
    reflexivity.
Defined.

(** C3, as the claim has it, fails: the exception the iterator raised does
    not reach the consumer, and the frames are not the closing frames
    followed by the done sentinel. *)
Lemma exception_not_propagated :
  let r :=
    stream_claude_response
      (AsyncIterable [AYield (text_chunk "Hello"); ARaise boom])
      "msg_1" "claude" in
  propagated r <> Some boom
  /\ frames r
     <> [format_message_start "msg_1" "claude" "assistant";
         format_content_block_start 0;
         text_frame "Hello";
         format_message_delta (PStr "error") PNone;
         format_message_stop;
         format_done].
Proof.
  split; discriminate.
Qed.

(** ** The terminal chunk *)

(** C6, as the source has it.  When a [message_delta] chunk whose delta can
    be read (a dictionary, or no [delta] entry) comes after chunks that
    pass, the frames that answer it are [content_block_stop], the
    [message_delta] frame whose delta holds the JSON text of the chunk's
    [stop_reason] (of [end_turn] if it has none) and of its
    [stop_sequence] (of [None] if it has none), and [message_stop].  The
    loop ends there: the items after the chunk stay in the iterator and the
    frames are those of the upstream cut after the chunk.  After a content
    frame the sentinel follows at once. *)
Theorem message_delta_stops_drain
  (chunks : list pyval) (chunk : pyval) (post : list anext_result)
  (message_id model : string) :
  forallb passes chunks = true ->
  is_message_delta chunk = true ->
  is_dict (chunk_delta chunk) = true ->
  let r :=
    stream_claude_response
      (AsyncIterable (map AYield chunks ++ AYield chunk :: post))
      message_id model in
  (exists tail,
     frames r
     = ([format_message_start message_id model "assistant";
         format_content_block_start 0]
        ++ content_frames chunks
        ++ [content_block_stop_text;
            message_delta_text
              (json_dumps (delta_field chunk "stop_reason" (PStr "end_turn")))
              (json_dumps (delta_field chunk "stop_sequence" PNone));
            message_stop_text]
        ++ tail ++ [done_literal])%list
     /\ (sends_content chunks = true -> tail = []))
  /\ unconsumed r = post
  /\ propagated r = None
  /\ frames r
     = frames (stream_claude_response
                 (AsyncIterable (map AYield chunks ++ [AYield chunk]))
                 message_id model).
Proof.
  intros Hp Hm Hd. cbv zeta.
  rewrite (stream_after_passing chunks (AYield chunk :: post) message_id model
             _ _ _ Hp (async_for_message_delta _ _ _ Hm Hd)).
  rewrite (stream_after_passing chunks [AYield chunk] message_id model
             _ _ _ Hp (async_for_message_delta _ _ _ Hm Hd)).
  cbn [frames unconsumed propagated upstream has_content closing_exn].
  repeat split.
  exists (closing_frames (sends_content chunks) (Returned tt)). split.
  - wire_text. reflexivity.
  - intros Hs. rewrite Hs. reflexivity.
Qed.

Lemma message_delta_stops_drain_witness :
  (forallb passes [text_chunk "Hello"] = true
   /\ is_message_delta (stop_chunk "max_tokens") = true
   /\ is_dict (chunk_delta (stop_chunk "max_tokens")) = true)
  /\ (exists tail,
        frames (stream_claude_response
                  (AsyncIterable (map AYield [text_chunk "Hello"]
                                  ++ AYield (stop_chunk "max_tokens")
                                     :: [AYield (text_chunk "late");
                                         ARaise boom]))
                  "msg_1" "claude")
        = ([format_message_start "msg_1" "claude" "assistant";
            format_content_block_start 0]
           ++ [content_block_delta_text "Hello"]
           ++ [content_block_stop_text;
               message_delta_text (quoted "max_tokens") "null";
               message_stop_text]
           ++ tail ++ [done_literal])%list
        /\ tail = []).
Proof.
  split; [repeat split |].
  destruct (message_delta_stops_drain [text_chunk "Hello"]
              (stop_chunk "max_tokens")
              [AYield (text_chunk "late"); ARaise boom] "msg_1" "claude")
    as [[tail [Hf Ht]] _]; try reflexivity.
  exists tail. split; [exact Hf | apply Ht; reflexivity].
Defined.

(** C6, as the claim has it, fails for a [message_delta] chunk whose
    [delta] entry is [None]: [.get] raises after [content_block_stop], the
    [message_delta] frame that follows holds the stop reason [error], not
    one of the chunk nor [end_turn], and an error frame comes before the
    sentinel. *)
Lemma null_delta_not_closed_with_end_turn :
  let r :=
    stream_claude_response
      (AsyncIterable [AYield (text_chunk "Hello"); AYield null_delta_chunk])
      "msg_1" "claude" in
  frames r
  = [format_message_start "msg_1" "claude" "assistant";
     format_content_block_start 0;
     content_block_delta_text "Hello";
     content_block_stop_text;
     message_delta_text (quoted "error") "null";
     message_stop_text;
     error_text "internal_server_error"
       "'NoneType' object has no attribute 'get'";
     done_literal]
  /\ ~ In (message_delta_text (quoted "end_turn") "null") (frames r).
Proof.
  assert (Hf : frames
                 (stream_claude_response
                    (AsyncIterable [AYield (text_chunk "Hello");
                                    AYield null_delta_chunk])
                    "msg_1" "claude")
               = [format_message_start "msg_1" "claude" "assistant";
                  format_content_block_start 0;
                  content_block_delta_text "Hello";
                  content_block_stop_text;
                  message_delta_text (quoted "error") "null";
                  message_stop_text;
                  error_text "internal_server_error"
                    "'NoneType' object has no attribute 'get'";
                  done_literal])
    by reflexivity.
  cbv zeta. split; [exact Hf |].
  rewrite Hf. intros Hin. simpl in Hin.
  repeat (destruct Hin as [Hin | Hin]; [discriminate Hin |]).
  exact Hin.
Qed.

(** A [message_delta] chunk that comes before any content frame is answered
    twice: once by the loop, once by the closing after the loop, which
    tests [has_content] and not whether the loop has closed the message. *)
Example message_delta_before_content_closes_twice :
  map kind_of
    (frames (stream_claude_response
               (AsyncIterable [AYield (stop_chunk "max_tokens")])
               "msg_1" "claude"))
  = [KMessageStart; KContentBlockStart;
     KContentBlockStop; KMessageDelta; KMessageStop;
     KContentBlockStop; KMessageDelta; KMessageStop;
     KDone].
Proof. reflexivity. Qed.

(** ** Text deltas *)

Lemma carries_text_passes (chunk : pyval) (t : string) :
  carries_text chunk t -> passes chunk = true.
Proof.
  intros (Hc & Hd & _). unfold passes.
  rewrite (content_block_delta_not_message_delta _ Hc), Hc, Hd. reflexivity.
Qed.

Lemma carries_text_frame (chunk : pyval) (t : string) :
  carries_text chunk t ->
  content_frame_of chunk = if nonempty t then [text_frame t] else [].
Proof.
  intros (Hc & _ & Ht). unfold content_frame_of, sends_text, nonempty.
  rewrite Hc, Ht. reflexivity.
Qed.

Lemma content_frames_of_texts (chunks : list pyval) (ts : list string) :
  Forall2 carries_text chunks ts ->
  forallb passes chunks = true
  /\ content_frames chunks = map text_frame (filter nonempty ts).
Proof.
  induction 1 as [| c t chunks ts Hct _ [IHp IHf]]; simpl; [now split |].
  rewrite (carries_text_passes _ _ Hct), IHp. split; [reflexivity |].
  unfold content_frames in *. simpl.
  rewrite (carries_text_frame _ _ Hct), IHf.
  now destruct (nonempty t).
Qed.

Lemma delta_frames_app (fs gs : list string) :
  delta_frames (fs ++ gs) = (delta_frames fs ++ delta_frames gs)%list.
Proof. apply filter_app. Qed.

Lemma delta_frames_text_frames (ts : list string) :
  delta_frames (map text_frame ts) = map text_frame ts.
Proof.
  induction ts as [| t ts IH]; [reflexivity |].
  unfold delta_frames in *. cbn [map filter].
  change (is_delta_kind (kind_of (text_frame t))) with true.
  cbv iota. now rewrite IH.
Qed.

Lemma delta_frames_closing (hc : bool) :
  delta_frames
    (if hc then []
     else [format_content_block_stop 0;
           format_message_delta (PStr "end_turn") PNone;
           format_message_stop])
  = [].
Proof. destruct hc; reflexivity. Qed.

Lemma delta_frames_opening (message_id model : string) :
  delta_frames [format_message_start message_id model "assistant";
                format_content_block_start 0]
  = [].
Proof. reflexivity. Qed.

Lemma delta_frames_done : delta_frames [format_done] = [].
Proof. reflexivity. Qed.

(** *** A text frame determines its text *)

Lemma differ_sound (a b : string) :
  differ a b = true -> forall r1 r2, a ++ r1 <> b ++ r2.
Proof.
  revert b. induction a as [| x a IH]; intros [| y b]; simpl;
    try discriminate.
  intros Hd r1 r2 Heq. injection Heq as Hxy Hrest.
  apply orb_prop in Hd. destruct Hd as [Hd | Hd].
  - subst y. now rewrite Ascii.eqb_refl in Hd.
  - exact (IH b Hd r1 r2 Hrest).
Qed.

Lemma in_all_ascii (c : ascii) : In c all_ascii.
Proof.
  rewrite <- (ascii_nat_embedding c). unfold all_ascii.
  apply in_map. apply in_seq. pose proof (nat_ascii_bounded c). lia.
Qed.

Lemma escapes_apart_all :
  forallb (fun a => forallb (escapes_apart a) all_ascii) all_ascii = true.
Proof. vm_compute. reflexivity. Qed.

Lemma forall_all_ascii (P : ascii -> ascii -> bool) :
  forallb (fun a => forallb (P a) all_ascii) all_ascii = true ->
  forall a b, P a b = true.
Proof.
  intros Hall a b.
  pose proof (proj1 (forallb_forall _ _) Hall a (in_all_ascii a)) as Ha.
  exact (proj1 (forallb_forall _ _) Ha b (in_all_ascii b)).
Qed.

Lemma escape_ascii_prefix_free (c1 c2 : ascii) (r1 r2 : string) :
  escape_ascii c1 ++ r1 = escape_ascii c2 ++ r2 -> c1 = c2.
Proof.
  intros Heq.
  pose proof (forall_all_ascii escapes_apart escapes_apart_all c1 c2) as Hp.
  unfold escapes_apart in Hp. apply orb_prop in Hp.
  destruct Hp as [Hc | Hd].
  - now apply Ascii.eqb_eq.
  - now elim (differ_sound _ _ Hd r1 r2).
Qed.

Lemma append_cancel_l (a x y : string) : a ++ x = a ++ y -> x = y.
Proof.
  induction a as [| c a IH]; simpl; [tauto |].
  intros Heq. injection Heq as Heq. auto.
Qed.

Lemma text_frame_text (t : string) : text_frame t = content_block_delta_text t.
Proof. unfold text_frame. now rewrite format_content_block_delta_text. Qed.

(** C8, as the source has it.  For an upstream of [content_block_delta]
    chunks that carry the texts [ts] and then ends, the
    [content_block_delta] frames are those of the texts of [ts] that are
    not empty, one frame for each, in the order of [ts]; a chunk with the
    empty text gets no frame.  The frame of a text is the
    [content_block_delta] frame whose delta holds, under [text], the JSON
    string that [json.dumps] writes for it. *)
Theorem text_deltas_in_order
  (chunks : list pyval) (ts : list string) (message_id model : string) :
  Forall2 carries_text chunks ts ->
  delta_frames
    (frames (stream_claude_response (AsyncIterable (map AYield chunks))
               message_id model))
  = map content_block_delta_text (filter nonempty ts).
Proof.
  intros Hct. destruct (content_frames_of_texts _ _ Hct) as [Hp Hf].
  rewrite (stream_exhausted _ message_id model Hp).
  cbn [frames]. rewrite Hf, !delta_frames_app, delta_frames_text_frames.
  rewrite delta_frames_closing, delta_frames_opening, delta_frames_done.
  cbn [app]. rewrite app_nil_r.
  apply map_ext. exact text_frame_text.
Qed.

Lemma carries_text_text_chunk (t : string) : carries_text (text_chunk t) t.
Proof. repeat split. Qed.

Lemma text_deltas_in_order_witness :
  Forall2 carries_text
    [text_chunk "Hel"; text_chunk ""; text_chunk "lo"] ["Hel"; ""; "lo"]
  /\ delta_frames
       (frames (stream_claude_response
                  (AsyncIterable
                     (map AYield
                        [text_chunk "Hel"; text_chunk ""; text_chunk "lo"]))
                  "msg_1" "claude"))
     = [content_block_delta_text "Hel"; content_block_delta_text "lo"].
Proof.
  assert (H : Forall2 carries_text
                [text_chunk "Hel"; text_chunk ""; text_chunk "lo"]
                ["Hel"; ""; "lo"])
    by (repeat constructor).
  split; [exact H |].
  exact (text_deltas_in_order _ _ "msg_1" "claude" H).
Defined.

(** C8, as the claim has it, fails: of three chunks with the texts
    [Hel], the empty text and [lo], the second gets no frame. *)
Lemma empty_text_gets_no_frame :
  delta_frames
    (frames (stream_claude_response
               (AsyncIterable
                  (map AYield
                     [text_chunk "Hel"; text_chunk ""; text_chunk "lo"]))
               "msg_1" "claude"))
  <> map text_frame ["Hel"; ""; "lo"].
Proof.
  discriminate.
Qed.

(** * Further properties of the formatter and of the stream *)

(** ** The data line *)

Lemma all_printable_app (a b : string) :
  all_printable (a ++ b) = all_printable a && all_printable b.
Proof.
  induction a as [| c a IH]; simpl; [reflexivity |].
  now rewrite IH, andb_assoc.
Qed.

Lemma forall_ascii (P : ascii -> bool) :
  forallb P all_ascii = true -> forall c, P c = true.
Proof.
  intros Hall c. exact (proj1 (forallb_forall _ _) Hall c (in_all_ascii c)).
Qed.

Lemma escape_printable_all : forallb escape_printable all_ascii = true.
Proof. vm_compute. reflexivity. Qed.

Lemma escape_ascii_printable (c : ascii) :
  all_printable (escape_ascii c) = true.
Proof. exact (forall_ascii escape_printable escape_printable_all c). Qed.

Lemma encode_basestring_ascii_printable (s : string) :
  all_printable (encode_basestring_ascii s) = true.
Proof.
  unfold encode_basestring_ascii, string_map.
  rewrite !all_printable_app. simpl. rewrite andb_true_r.
  induction (list_ascii_of_string s) as [| c l IH]; simpl; [reflexivity |].
  now rewrite all_printable_app, escape_ascii_printable, IH.
Qed.

Lemma string_of_uint_printable (d : Decimal.uint) :
  all_printable (NilEmpty.string_of_uint d) = true.
Proof.
  induction d; simpl; auto.
Qed.

Lemma int_str_printable (z : Z) : all_printable (int_str z) = true.
Proof.
  unfold int_str, NilZero.string_of_int, NilZero.string_of_uint.
  destruct (Z.to_int z) as [d | d]; destruct d; simpl;
    try reflexivity; apply string_of_uint_printable.
Qed.

(** Induction on a value through the lists it nests. *)
Lemma pyval_nested_ind (P : pyval -> Prop) :
  P PNone ->
  (forall b, P (PBool b)) ->
  (forall z, P (PInt z)) ->
  (forall s, P (PStr s)) ->
  (forall items, Forall P items -> P (PList items)) ->
  (forall entries, Forall (fun kv => P (snd kv)) entries ->
                   P (PDict entries)) ->
  forall v, P v.
Proof.
  intros HNone HBool HInt HStr HList HDict.
  fix IH 1. intros [| b | z | s | items | entries].
  - exact HNone.
  - apply HBool.
  - apply HInt.
  - apply HStr.
  - apply HList. induction items as [| x rest IHrest]; constructor.
    + apply IH.
    + exact IHrest.
  - apply HDict. induction entries as [| [k x] rest IHrest]; constructor.
    + apply IH.
    + exact IHrest.
Qed.

Lemma json_dumps_printable (v : pyval) : all_printable (json_dumps v) = true.
Proof.
  induction v as [| b | z | s | items IH | entries IH] using pyval_nested_ind.
  - reflexivity.
  - now destruct b.
  - apply int_str_printable.
  - apply encode_basestring_ascii_printable.
  - cbn [json_dumps]. rewrite !all_printable_app.
    change (all_printable "[") with true. change (all_printable "]") with true.
    rewrite andb_true_r. cbn [andb].
    induction IH as [| x rest Hx _ IHrest]; [reflexivity |].
    destruct rest as [| y rest]; cbv beta iota fix; [exact Hx |].
    rewrite !all_printable_app, Hx.
    change (all_printable ",") with true. cbn [andb]. exact IHrest.
  - cbn [json_dumps]. rewrite !all_printable_app.
    change (all_printable "{") with true. change (all_printable "}") with true.
    rewrite andb_true_r. cbn [andb].
    induction IH as [| [k x] rest Hx _ IHrest]; [reflexivity |].
    cbn [snd] in Hx.
    destruct rest as [| y rest]; cbv beta iota fix;
      rewrite !all_printable_app, encode_basestring_ascii_printable, Hx;
      change (all_printable ":") with true; cbn [andb]; [reflexivity |].
    change (all_printable ",") with true. cbn [andb]. exact IHrest.
Qed.

(** X2.  Whatever the data hold, the frame of [format_event] is the event
    line, then one data line of characters of [' '..'~'], then the blank
    line: [json.dumps] escapes every line feed, control character and
    non-ASCII character of the strings in the data. *)
Theorem format_event_data_line_printable
  (event_type : string) (data : list (string * pyval)) :
  exists j,
    format_event event_type data
    = "event: " ++ event_type ++ nl ++ "data: " ++ j ++ nl ++ nl
    /\ all_printable j = true
    /\ line_feeds j = 0.
Proof.
  exists (json_dumps (PDict data)). split; [reflexivity |].
  pose proof (json_dumps_printable (PDict data)) as Hp.
  split; [exact Hp |].
  induction (json_dumps (PDict data)) as [| c rest IH]; [reflexivity |].
  simpl in Hp |- *. apply andb_prop in Hp. destruct Hp as [Hc Hrest].
  rewrite (IH Hrest).
  destruct (Ascii.eqb c "010"%char) eqn:Hnl; [| reflexivity].
  apply Ascii.eqb_eq in Hnl. subst c. discriminate Hc.
Qed.

(** ** The event line *)

Lemma first_line_app (t rest : string) :
  line_feeds t = 0 -> first_line (t ++ nl ++ rest) = t.
Proof.
  induction t as [| c t IH]; simpl; [reflexivity |].
  destruct (Ascii.eqb c "010"%char); [discriminate |].
  intros Hn. f_equal. exact (IH Hn).
Qed.

Lemma strip_event_prefix (rest : string) :
  strip_prefix "event: " ("event: " ++ rest) = Some rest.
Proof. reflexivity. Qed.

(** X1.  The event line of a frame of [format_data_only] carries the string
    that [data.get("type", "unknown")] gives: the entry under [type] when it
    is a string, [unknown] when the data have no such entry.  (A string
    with a line feed would break the line; the formatter's own types have
    none.) *)
Theorem format_data_only_event_type
  (data : list (string * pyval)) (t : string) :
  dict_get data "type" (PStr "unknown") = PStr t ->
  line_feeds t = 0 ->
  event_type (format_data_only data) = Some t.
Proof.
  intros Ht Hn. unfold format_data_only. rewrite Ht. cbn [py_str].
  unfold event_type. rewrite strip_event_prefix. cbn [option_map].
  now rewrite (first_line_app _ _ Hn).
Qed.

Lemma format_data_only_event_type_witness :
  (dict_get [("index", PInt 0)] "type" (PStr "unknown") = PStr "unknown"
   /\ line_feeds "unknown" = 0)
  /\ event_type (format_data_only [("index", PInt 0)]) = Some "unknown".
Proof.
  split; [split; reflexivity |].
  apply (format_data_only_event_type [("index", PInt 0)] "unknown");
    reflexivity.
Defined.

(** ** The message identity *)

Lemma escape_not_quote_all : forallb escape_not_quote all_ascii = true.
Proof. vm_compute. reflexivity. Qed.

Lemma escape_ascii_not_quote (c : ascii) (r1 r2 : string) :
  escape_ascii c ++ r1 <> String "034"%char r2.
Proof.
  pose proof (forall_ascii escape_not_quote escape_not_quote_all c) as Hd.
  exact (differ_sound _ _ Hd r1 r2).
Qed.

(** An escaped string ends at the first double quote that is not part of
    an escape. *)
Lemma escaped_until_quote (s1 : string) :
  forall (s2 r1 r2 : string),
    string_map escape_ascii s1 ++ String "034"%char r1
    = string_map escape_ascii s2 ++ String "034"%char r2 ->
    s1 = s2 /\ r1 = r2.
Proof.
  unfold string_map.
  induction s1 as [| c1 s1 IH]; intros [| c2 s2] r1 r2; simpl; intros Heq.
  - injection Heq as Heq. now split.
  - rewrite append_assoc in Heq. symmetry in Heq.
    now elim (escape_ascii_not_quote _ _ _ Heq).
  - rewrite append_assoc in Heq.
    now elim (escape_ascii_not_quote _ _ _ Heq).
  - rewrite !append_assoc in Heq.
    pose proof (escape_ascii_prefix_free _ _ _ _ Heq) as Hc. subst c2.
    apply append_cancel_l in Heq.
    destruct (IH s2 r1 r2 Heq) as [Hs Hr]. now subst.
Qed.

(** X3.  In a [message_start] frame the JSON strings of the message id, of
    the role and of the model are told apart from what surrounds them: two
    frames are the same string only if [json.dumps] wrote the same string
    literal for the id in both, and for the model, and for the role.  No
    value can pass for a part of another field. *)
Theorem format_message_start_fields_delimited
  (id1 model1 role1 id2 model2 role2 : string) :
  format_message_start id1 model1 role1
  = format_message_start id2 model2 role2 ->
  encode_basestring_ascii id1 = encode_basestring_ascii id2
  /\ encode_basestring_ascii model1 = encode_basestring_ascii model2
  /\ encode_basestring_ascii role1 = encode_basestring_ascii role2.
Proof.
  unfold format_message_start, format_data_only.
  cbn [dict_get String.eqb Ascii.eqb Bool.eqb py_str json_dumps].
  unfold encode_basestring_ascii.
  cbn [string_map list_ascii_of_string concat_map escape_ascii].
  intros Heq. simpl in Heq.
  repeat (rewrite !append_assoc in Heq; simpl in Heq).
  injection Heq as Heq.
  apply escaped_until_quote in Heq. destruct Heq as [Hid Heq].
  injection Heq as Heq.
  apply escaped_until_quote in Heq. destruct Heq as [Hrole Heq].
  injection Heq as Heq.
  apply escaped_until_quote in Heq. destruct Heq as [Hmodel _].
  now subst.
Qed.

Lemma format_message_start_fields_delimited_witness :
  format_message_start "msg_1" "claude" "assistant"
  = format_message_start "msg_1" "claude" "assistant"
  /\ encode_basestring_ascii "msg_1" = quoted "msg_1".
Proof.
  split; [reflexivity |].
  apply (format_message_start_fields_delimited
           "msg_1" "claude" "assistant" "msg_1" "claude" "assistant").
  reflexivity.
Defined.

(** ** Invariants of the frames of a stream *)

Section FramesSatisfy.

Variable P : string -> Prop.

Hypothesis P_content_block_delta :
  forall text index, P (format_content_block_delta text index).
Hypothesis P_content_block_stop :
  forall index, P (format_content_block_stop index).
Hypothesis P_message_delta :
  forall stop_reason stop_sequence,
    P (format_message_delta stop_reason stop_sequence).
Hypothesis P_message_stop : P format_message_stop.
Hypothesis P_error :
  forall error_type message, P (format_error error_type message).

Lemma process_chunk_satisfy (chunk : pyval) (st : locals) :
  Forall P (fst (fst (process_chunk chunk st))).
Proof.
  destruct (chunk_cases chunk) as [Hp | [[Hm Hd] | [Ht Hd]]].
  - rewrite (process_chunk_passes _ _ Hp). simpl. unfold content_frame_of.
    destruct (sends_text chunk); auto.
  - rewrite (process_chunk_message_delta _ _ Hm Hd). simpl. auto.
  - rewrite (process_chunk_bad_delta _ _ Ht Hd). simpl.
    destruct (is_message_delta chunk); auto.
Qed.

Lemma async_for_satisfy (it : list anext_result) :
  forall st, Forall P (fst (fst (async_for_from it process_chunk st))).
Proof.
  induction it as [| [chunk | e] it' IH]; intros st; simpl.
  - constructor.
  - unfold bind at 1. unfold set_upstream at 1. simpl. unfold bind.
    pose proof (process_chunk_satisfy chunk
                  (mkLocals it' (has_content st))) as Hc.
    destruct (process_chunk chunk _) as [[fs st1] [[|] | e]]; simpl in *.
    + specialize (IH st1).
      destruct (async_for_from it' process_chunk st1) as [[fs' st2] o].
      simpl in *. apply Forall_app. split; assumption.
    + now rewrite app_nil_r.
    + assumption.
  - unfold bind, set_upstream. simpl. destruct (class_of e); constructor.
Qed.

Lemma closing_frames_satisfy (hc : bool) (o : outcome unit) :
  Forall P (closing_frames hc o).
Proof.
  destruct o as [[] | [cls msg]]; simpl.
  - destruct hc; auto.
  - destruct cls; destruct hc; simpl; auto.
Qed.

(** The frames of a stream over an iterator: the two opening frames, frames
    that satisfy [P], the sentinel. *)
Lemma stream_frames_satisfy (it : list anext_result)
  (message_id model : string) :
  exists middle,
    frames (stream_claude_response (AsyncIterable it) message_id model)
    = (format_message_start message_id model "assistant"
       :: format_content_block_start 0 :: middle ++ [format_done])%list
    /\ Forall P middle.
Proof.
  destruct (async_for_from it process_chunk (mkLocals it false))
    as [[fs st'] o] eqn:Hloop.
  rewrite (lifecycle_run _ message_id model _ _ _ Hloop). cbn [frames].
  exists (fs ++ closing_frames (has_content st') o)%list. split.
  - simpl. now rewrite <- app_assoc.
  - apply Forall_app. split.
    + pose proof (async_for_satisfy it (mkLocals it false)) as Hfs.
      now rewrite Hloop in Hfs.
    + apply closing_frames_satisfy.
Qed.

End FramesSatisfy.

Lemma format_data_only_sse_frame (data : list (string * pyval)) (t : string) :
  dict_get data "type" (PStr "unknown") = PStr t ->
  all_printable t = true ->
  sse_frame (format_data_only data).
Proof.
  intros Ht Hp. exists t, (json_dumps (PDict data)).
  unfold format_data_only. rewrite Ht. cbn [py_str].
  repeat split; [exact Hp | apply json_dumps_printable].
Qed.

Lemma stream_body_sse
  (claude_response_iterator : response) (message_id model : string) :
  exists body,
    frames (stream_claude_response claude_response_iterator message_id model)
    = (body ++ [format_done])%list
    /\ Forall sse_frame body.
Proof.
  destruct claude_response_iterator as [it | v].
  - destruct (stream_frames_satisfy sse_frame) with (it := it)
      (message_id := message_id) (model := model) as [middle [Hf Hm]];
      try (intros; eapply format_data_only_sse_frame; reflexivity).
    exists (format_message_start message_id model "assistant"
            :: format_content_block_start 0 :: middle).
    split; [exact Hf |].
    repeat constructor; try exact Hm;
      eapply format_data_only_sse_frame; reflexivity.
  - exists [format_error "internal_server_error"
              "Invalid response type from Claude client"].
    split; [reflexivity |].
    repeat constructor. eapply format_data_only_sse_frame; reflexivity.
Qed.

(** X4.  Every frame of a stream but the last is an SSE frame of two lines
    and a blank one, an event line and a data line, both within
    [' '..'~'], whatever the message id, the model, the texts and the stop
    reasons hold; the last frame is the sentinel.  No text of the upstream
    can break a frame in two. *)
Theorem stream_frames_are_sse_frames
  (claude_response_iterator : response) (message_id model : string) :
  exists body,
    frames (stream_claude_response claude_response_iterator message_id model)
    = (body ++ [format_done])%list
    /\ Forall sse_frame body.
Proof.
  apply stream_body_sse.
Qed.

(** X5.  Over an iterator, whatever it yields or raises, the stream starts
    with [message_start] and [content_block_start] and ends with the
    sentinel, and no frame between them is a [message_start], a
    [content_block_start] or a sentinel: the message is opened once. *)
Theorem stream_opens_once
  (it : list anext_result) (message_id model : string) :
  exists middle,
    frames (stream_claude_response (AsyncIterable it) message_id model)
    = (format_message_start message_id model "assistant"
       :: format_content_block_start 0 :: middle ++ [format_done])%list
    /\ Forall (fun f => kind_of f <> KMessageStart
                        /\ kind_of f <> KContentBlockStart
                        /\ kind_of f <> KDone) middle.
Proof.
  apply stream_frames_satisfy; intros;
    rewrite ?kind_of_format_content_block_delta,
      ?kind_of_format_content_block_stop, ?kind_of_format_message_delta,
      ?kind_of_format_message_stop, ?kind_of_format_error;
    repeat split; discriminate.
Qed.

(** ** A delta that cannot be read *)

Lemma async_for_bad_delta (chunk : pyval) (post : list anext_result)
  (st : locals) :
  is_content_block_delta chunk || is_message_delta chunk = true ->
  is_dict (chunk_delta chunk) = false ->
  async_for_from (AYield chunk :: post) process_chunk st
  = (if is_message_delta chunk then [format_content_block_stop 0] else [],
     mkLocals post (has_content st),
     Raised (AttributeError (chunk_delta chunk) "get")).
Proof.
  intros Ht Hd. simpl. unfold bind at 1. unfold set_upstream at 1. simpl.
  unfold bind at 1. rewrite (process_chunk_bad_delta _ _ Ht Hd).
  reflexivity.
Qed.

(** X6.  A [content_block_delta] or [message_delta] chunk whose [delta]
    entry is no dictionary makes [.get] raise an [AttributeError] inside
    the loop.  The stream then closes like on any [Exception]:
    [content_block_stop] if no content frame went out (after the one a
    [message_delta] chunk has already got), the [message_delta] frame whose
    delta reads [{"stop_reason":"error","stop_sequence":null}],
    [message_stop], the error frame with the text of the [AttributeError],
    the sentinel; the consumer gets no exception and the later items stay
    in the iterator. *)
Theorem unreadable_delta_closes_with_error
  (chunks : list pyval) (chunk : pyval) (post : list anext_result)
  (message_id model : string) :
  forallb passes chunks = true ->
  is_content_block_delta chunk || is_message_delta chunk = true ->
  is_dict (chunk_delta chunk) = false ->
  stream_claude_response
    (AsyncIterable (map AYield chunks ++ AYield chunk :: post))
    message_id model
  = mkResult
      ([format_message_start message_id model "assistant";
        format_content_block_start 0]
       ++ content_frames chunks
       ++ (if is_message_delta chunk then [content_block_stop_text] else [])
       ++ (if sends_content chunks then [] else [content_block_stop_text])
       ++ [message_delta_text (quoted "error") "null";
           message_stop_text;
           error_text "internal_server_error"
             ("'" ++ type_name (chunk_delta chunk)
              ++ "' object has no attribute 'get'");
           done_literal])%list
      post None.
Proof.
  intros Hp Ht Hd.
  rewrite (stream_after_passing chunks (AYield chunk :: post) message_id model
             _ _ _ Hp (async_for_bad_delta _ _ _ Ht Hd)).
  simpl. repeat (rewrite <- app_assoc; simpl). wire_text. reflexivity.
Qed.

Lemma unreadable_delta_closes_with_error_witness :
  (forallb passes [text_chunk ""] = true
   /\ is_content_block_delta null_delta_chunk
      || is_message_delta null_delta_chunk = true
   /\ is_dict (chunk_delta null_delta_chunk) = false)
  /\ stream_claude_response
       (AsyncIterable (map AYield [text_chunk ""]
                       ++ AYield null_delta_chunk
                          :: [AYield (text_chunk "late")]))
       "msg_1" "claude"
     = mkResult
         [format_message_start "msg_1" "claude" "assistant";
          format_content_block_start 0;
          content_block_stop_text;
          content_block_stop_text;
          message_delta_text (quoted "error") "null";
          message_stop_text;
          error_text "internal_server_error"
            "'NoneType' object has no attribute 'get'";
          done_literal]
         [AYield (text_chunk "late")] None.
Proof.
  split; [repeat split |].
  apply (unreadable_delta_closes_with_error [text_chunk ""]
           null_delta_chunk [AYield (text_chunk "late")] "msg_1" "claude");
    reflexivity.
Defined.

(** ** An exception that no clause names *)

(** X7.  When the iterator raises an exception that is neither a
    cancellation nor an [Exception], no handler runs: after the content
    frames comes the sentinel alone, without [content_block_stop],
    [message_delta] or [message_stop], and the exception reaches the
    consumer. *)
Theorem other_base_exception_only_done
  (chunks : list pyval) (e : exn) (post : list anext_result)
  (message_id model : string) :
  forallb passes chunks = true ->
  class_of e = OtherBaseException ->
  stream_claude_response
    (AsyncIterable (map AYield chunks ++ ARaise e :: post)) message_id model
  = mkResult
      ([format_message_start message_id model "assistant";
        format_content_block_start 0]
       ++ content_frames chunks ++ [format_done])%list
      post (Some e).
Proof.
  intros Hp Hc.
  assert (Hne : class_of e <> StopAsyncIteration)
    by (rewrite Hc; discriminate).
  rewrite (stream_after_passing chunks (ARaise e :: post) message_id model
             _ _ _ Hp (async_for_raise _ _ _ Hne)).
  simpl. now rewrite Hc.
Qed.

Lemma other_base_exception_only_done_witness :
  (forallb passes [text_chunk "Hello"] = true
   /\ class_of keyboard_interrupt = OtherBaseException)
  /\ stream_claude_response
       (AsyncIterable (map AYield [text_chunk "Hello"]
                       ++ ARaise keyboard_interrupt :: []))
       "msg_1" "claude"
     = mkResult
         [format_message_start "msg_1" "claude" "assistant";
          format_content_block_start 0;
          text_frame "Hello";
          format_done]
         [] (Some keyboard_interrupt).
Proof.
  split; [split; reflexivity |].
  apply (other_base_exception_only_done [text_chunk "Hello"]
           keyboard_interrupt [] "msg_1" "claude");
    reflexivity.
Defined.

(** ** Frames as they come *)

(** X10.  The frames that answer the first chunks do not wait for what
    follows: after chunks that pass, the stream starts with the two opening
    frames and the content frames of these chunks, whatever the iterator
    does next. *)
Theorem content_frames_do_not_depend_on_later_items
  (chunks : list pyval) (rest : list anext_result)
  (message_id model : string) :
  forallb passes chunks = true ->
  firstn (2 + List.length (content_frames chunks))
    (frames (stream_claude_response
               (AsyncIterable (map AYield chunks ++ rest)) message_id model))
  = ([format_message_start message_id model "assistant";
      format_content_block_start 0]
     ++ content_frames chunks)%list.
Proof.
  intros Hp.
  destruct (async_for_from rest process_chunk
              (mkLocals rest (sends_content chunks)))
    as [[fs st'] o] eqn:Hrest.
  rewrite (stream_after_passing chunks rest message_id model _ _ _ Hp Hrest).
  cbn [frames]. rewrite app_assoc.
  rewrite firstn_app.
  replace (2 + List.length (content_frames chunks))
    with (List.length ([format_message_start message_id model "assistant";
                   format_content_block_start 0]
                  ++ content_frames chunks)%list)
    by (rewrite List.length_app; reflexivity).
  rewrite firstn_all, Nat.sub_diag. simpl. now rewrite app_nil_r.
Qed.

Lemma content_frames_do_not_depend_on_later_items_witness :
  forallb passes [text_chunk "Hel"; text_chunk "lo"] = true
  /\ firstn (2 + List.length (content_frames [text_chunk "Hel"; text_chunk "lo"]))
       (frames (stream_claude_response
                  (AsyncIterable (map AYield [text_chunk "Hel"; text_chunk "lo"]
                                  ++ [ARaise boom]))
                  "msg_1" "claude"))
     = [format_message_start "msg_1" "claude" "assistant";
        format_content_block_start 0;
        text_frame "Hel"; text_frame "lo"].
Proof.
  split; [reflexivity |].
  apply (content_frames_do_not_depend_on_later_items
           [text_chunk "Hel"; text_chunk "lo"] [ARaise boom]
           "msg_1" "claude").
  reflexivity.
Defined.

(** ** The message identity in the stream *)

(** X11.  The message id and the model go into the first frame and nowhere
    else: two streams over the same iterator have the same frames after
    the first, leave the same items and end with the same exception,
    whatever their message ids and models. *)
Theorem identity_only_in_first_frame
  (it : list anext_result) (id1 model1 id2 model2 : string) :
  let r1 := stream_claude_response (AsyncIterable it) id1 model1 in
  let r2 := stream_claude_response (AsyncIterable it) id2 model2 in
  hd "" (frames r1) = format_message_start id1 model1 "assistant"
  /\ tl (frames r1) = tl (frames r2)
  /\ unconsumed r1 = unconsumed r2
  /\ propagated r1 = propagated r2.
Proof.
  cbv zeta.
  destruct (async_for_from it process_chunk (mkLocals it false))
    as [[fs st'] o] eqn:Hloop.
  rewrite (lifecycle_run _ id1 model1 _ _ _ Hloop).
  rewrite (lifecycle_run _ id2 model2 _ _ _ Hloop).
  repeat split.
Qed.

(** ** What the stream depends on *)

Lemma same_run_refl {A : Type} (r : list string * locals * outcome A) :
  same_run r r.
Proof. repeat split. Qed.

(** The loop body hands the upstream on as it got it; nothing else of its
    run depends on it. *)
Lemma process_chunk_upstream (chunk : pyval) (u1 u2 : list anext_result)
  (hc : bool) :
  exists fs hc' o,
    process_chunk chunk (mkLocals u1 hc) = (fs, mkLocals u1 hc', o)
    /\ process_chunk chunk (mkLocals u2 hc) = (fs, mkLocals u2 hc', o).
Proof.
  destruct (chunk_cases chunk) as [Hp | [[Hm Hd] | [Ht Hd]]].
  - rewrite !(process_chunk_passes _ _ Hp). simpl. eauto.
  - rewrite !(process_chunk_message_delta _ _ Hm Hd). eauto.
  - rewrite !(process_chunk_bad_delta _ _ Ht Hd). eauto.
Qed.

Lemma same_run_cons {A : Type} (fs : list string)
  (r1 r2 : list string * locals * outcome A) :
  same_run r1 r2 ->
  same_run
    (let '(fs1, st1, o1) := r1 in ((fs ++ fs1)%list, st1, o1))
    (let '(fs2, st2, o2) := r2 in ((fs ++ fs2)%list, st2, o2)).
Proof.
  destruct r1 as [[fs1 st1] o1], r2 as [[fs2 st2] o2].
  unfold same_run. simpl. intros (Hf & Hh & Ho). subst. repeat split.
  assumption.
Qed.

Lemma async_for_step_yield (chunk : pyval) (it' : list anext_result)
  (st : locals) :
  async_for_from (AYield chunk :: it') process_chunk st
  = match process_chunk chunk (mkLocals it' (has_content st)) with
    | (fs, st1, Returned LoopNext) =>
        let '(fs', st2, o) := async_for_from it' process_chunk st1 in
        ((fs ++ fs')%list, st2, o)
    | (fs, st1, Returned LoopBreak) => (fs, st1, Returned tt)
    | (fs, st1, Raised e) => (fs, st1, Raised e)
    end.
Proof.
  simpl. unfold bind at 1. unfold set_upstream at 1. simpl. unfold bind.
  destruct (process_chunk chunk _) as [[fs st1] [[|] | e]]; simpl.
  - now destruct (async_for_from it' process_chunk st1) as [[fs' st2] o].
  - now rewrite app_nil_r.
  - reflexivity.
Qed.

Lemma async_for_silent (chunk : pyval) (it2 : list anext_result) :
  silent chunk = true ->
  forall (it1 : list anext_result) (hc : bool) (u1 u2 : list anext_result),
    same_run
      (async_for_from (it1 ++ AYield chunk :: it2) process_chunk
         (mkLocals u1 hc))
      (async_for_from (it1 ++ it2) process_chunk (mkLocals u2 hc)).
Proof.
  intros Hs. unfold silent in Hs. apply andb_prop in Hs.
  destruct Hs as [Hp Hn]. apply negb_true_iff in Hn.
  induction it1 as [| [ch | e] it1 IH]; intros hc u1 u2.
  - cbn [app]. rewrite async_for_step_yield.
    rewrite (process_chunk_passes _ _ Hp). cbn [has_content upstream].
    unfold content_frame_of. rewrite Hn, orb_false_r.
    rewrite (async_for_from_upstream it2 u2 it2).
    destruct (async_for_from it2 process_chunk (mkLocals it2 hc))
      as [[fs st'] o].
    apply same_run_refl.
  - cbn [app]. rewrite !async_for_step_yield. cbn [has_content].
    destruct (process_chunk_upstream ch (it1 ++ AYield chunk :: it2)
                (it1 ++ it2) hc) as (fs & hc' & o & H1 & H2).
    rewrite H1, H2. destruct o as [[|] | e].
    + exact (same_run_cons fs _ _ (IH hc' _ _)).
    + repeat split.
    + repeat split.
  - cbn [app]. rewrite !async_for_step_raise. repeat split.
Qed.

Lemma stream_of_same_run (it1 it2 : list anext_result)
  (message_id model : string) :
  same_run (async_for_from it1 process_chunk (mkLocals it1 false))
           (async_for_from it2 process_chunk (mkLocals it2 false)) ->
  frames (stream_claude_response (AsyncIterable it1) message_id model)
  = frames (stream_claude_response (AsyncIterable it2) message_id model)
  /\ propagated (stream_claude_response (AsyncIterable it1) message_id model)
     = propagated
         (stream_claude_response (AsyncIterable it2) message_id model).
Proof.
  destruct (async_for_from it1 process_chunk (mkLocals it1 false))
    as [[fs1 st1] o1] eqn:H1.
  destruct (async_for_from it2 process_chunk (mkLocals it2 false))
    as [[fs2 st2] o2] eqn:H2.
  unfold same_run. cbn [fst snd]. intros (Hf & Hh & Ho). subst.
  rewrite (lifecycle_run _ message_id model _ _ _ H1).
  rewrite (lifecycle_run _ message_id model _ _ _ H2).
  cbn [frames propagated]. now rewrite Hh.
Qed.

(** X8.  A chunk without effect can be taken out of the upstream, wherever
    it stands: a chunk that is no dictionary, a dictionary of another type,
    or a [content_block_delta] with a missing, empty or otherwise false
    text.  The frames and the exception of the stream stay the same. *)
Theorem silent_chunk_changes_nothing
  (chunk : pyval) (it1 it2 : list anext_result) (message_id model : string) :
  silent chunk = true ->
  frames (stream_claude_response
            (AsyncIterable (it1 ++ AYield chunk :: it2)) message_id model)
  = frames (stream_claude_response
              (AsyncIterable (it1 ++ it2)) message_id model)
  /\ propagated (stream_claude_response
                   (AsyncIterable (it1 ++ AYield chunk :: it2))
                   message_id model)
     = propagated (stream_claude_response
                     (AsyncIterable (it1 ++ it2)) message_id model).
Proof.
  intros Hs. apply stream_of_same_run.
  exact (async_for_silent chunk it2 Hs it1 false _ _).
Qed.

Lemma silent_chunk_changes_nothing_witness :
  let ping := PDict [("type", PStr "ping")] in
  let no_text := PDict [("type", PStr "content_block_delta")] in
  (silent ping = true /\ silent no_text = true /\ silent (PInt 7) = true)
  /\ frames (stream_claude_response
               (AsyncIterable ([AYield (text_chunk "Hello")]
                               ++ AYield no_text
                                  :: [AYield (stop_chunk "end_turn")]))
               "msg_1" "claude")
     = frames (stream_claude_response
                 (AsyncIterable ([AYield (text_chunk "Hello")]
                                 ++ [AYield (stop_chunk "end_turn")]))
                 "msg_1" "claude").
Proof.
  cbv zeta. split; [repeat split |].
  apply (silent_chunk_changes_nothing
           (PDict [("type", PStr "content_block_delta")])
           [AYield (text_chunk "Hello")] [AYield (stop_chunk "end_turn")]
           "msg_1" "claude").
  reflexivity.
Defined.

(** ** What the stream consumes *)



(** ** The frames read back from the wire *)

Lemma printable_not_line_feed (c : ascii) :
  printable c = true -> Ascii.eqb c "010"%char = false.
Proof.
  intros Hp. destruct (Ascii.eqb c "010"%char) eqn:Hc; [| reflexivity].
  apply Ascii.eqb_eq in Hc. subst c. discriminate Hp.
Qed.

(** Characters of [' '..'~'] go to the piece being read. *)
Lemma cut_frames_printable (s : string) :
  all_printable s = true ->
  forall (x : ascii) (w cur : string),
    cut_frames (s ++ String x w) cur = cut_frames (String x w) (cur ++ s).
Proof.
  induction s as [| c s IH]; intros Hp x w cur.
  - cbn [append]. f_equal. induction cur as [| a cur IHc]; simpl;
      [reflexivity | now rewrite <- IHc].
  - simpl in Hp. apply andb_prop in Hp. destruct Hp as [Hc Hs].
    cbn [append].
    assert (Hstep : cut_frames (String c (s ++ String x w)) cur
                    = cut_frames (s ++ String x w)
                        (cur ++ String c EmptyString)).
    { destruct s as [| c' s']; cbn [append cut_frames];
        now rewrite (printable_not_line_feed _ Hc). }
    rewrite Hstep, (IH Hs). f_equal. now rewrite append_assoc.
Qed.

(** A line feed before another character goes to the piece being read. *)
Lemma cut_frames_line_feed (d : ascii) (w cur : string) :
  Ascii.eqb d "010"%char = false ->
  cut_frames (String "010"%char (String d w)) cur
  = cut_frames (String d w) (cur ++ nl).
Proof.
  intros Hd. cbn [cut_frames]. now rewrite Hd, andb_false_r.
Qed.

Lemma cut_frames_blank_line (w cur : string) :
  cut_frames (String "010"%char (String "010"%char w)) cur
  = (cur ++ nl ++ nl) :: cut_frames w EmptyString.
Proof. reflexivity. Qed.

Lemma cut_frames_sse_frame (frame w : string) :
  sse_frame frame ->
  cut_frames (frame ++ w) EmptyString = frame :: cut_frames w EmptyString.
Proof.
  intros (t & j & -> & Ht & Hj).
  assert (H1 : all_printable ("event: " ++ t) = true)
    by (rewrite all_printable_app, Ht; reflexivity).
  assert (H2 : all_printable ("data: " ++ j) = true)
    by (rewrite all_printable_app, Hj; reflexivity).
  replace (("event: " ++ t ++ nl ++ "data: " ++ j ++ nl ++ nl) ++ w)
    with (("event: " ++ t)
          ++ String "010"%char
               (String "d"%char
                  (("ata: " ++ j)
                   ++ String "010"%char (String "010"%char w)))).
  2:{ cbn [nl]. repeat (rewrite ?append_assoc; cbn [append]). reflexivity. }
  rewrite (cut_frames_printable _ H1).
  rewrite cut_frames_line_feed by reflexivity.
  change (String "d"%char (("ata: " ++ j)
                           ++ String "010"%char (String "010"%char w)))
    with (("data: " ++ j) ++ String "010"%char (String "010"%char w)).
  rewrite (cut_frames_printable _ H2), cut_frames_blank_line.
  f_equal. cbn [nl]. repeat (rewrite ?append_assoc; cbn [append]).
  reflexivity.
Qed.

Lemma cut_frames_done : cut_frames format_done EmptyString = [format_done].
Proof. reflexivity. Qed.

Lemma cut_frames_body (body : list string) :
  Forall sse_frame body ->
  cut_frames (wire (body ++ [format_done])) EmptyString
  = (body ++ [format_done])%list.
Proof.
  induction 1 as [| f body Hf _ IH]; [reflexivity |].
  cbn [app]. unfold wire in *. cbn [concat_map].
  now rewrite (cut_frames_sse_frame _ _ Hf), IH.
Qed.

(** X12.  The frames of a stream, written one after the other, are read
    back one by one by cutting the text after each blank line: every frame
    ends with its own blank line and has none inside, whatever texts the
    upstream carries. *)
Theorem frames_read_back_from_wire
  (claude_response_iterator : response) (message_id model : string) :
  cut_frames
    (wire (frames (stream_claude_response claude_response_iterator
                     message_id model)))
    EmptyString
  = frames (stream_claude_response claude_response_iterator message_id model).
Proof.
  destruct (stream_body_sse claude_response_iterator message_id model)
    as (body & -> & Hbody).
  now apply cut_frames_body.
Qed.

(** ** The content frames on every path *)

Lemma delta_frames_content_frame_of (chunk : pyval) :
  delta_frames (content_frame_of chunk) = content_frame_of chunk.
Proof.
  unfold content_frame_of. destruct (sends_text chunk); reflexivity.
Qed.

Lemma delta_frames_closing_frames (hc : bool) (o : outcome unit) :
  delta_frames (closing_frames hc o) = [].
Proof.
  destruct o as [[] | [cls msg]]; simpl.
  - destruct hc; reflexivity.
  - destruct cls; destruct hc; reflexivity.
Qed.

Lemma async_for_delta_frames (it : list anext_result) :
  forall st,
    delta_frames (fst (fst (async_for_from it process_chunk st)))
    = content_frames (passing_prefix it).
Proof.
  induction it as [| [chunk | e] it' IH]; intros st.
  - reflexivity.
  - rewrite async_for_step_yield. cbn [passing_prefix].
    destruct (chunk_cases chunk) as [Hp | [[Hm Hd] | [Ht Hd]]].
    + rewrite (process_chunk_passes _ _ Hp), Hp.
      specialize (IH (mkLocals it' (has_content st || sends_text chunk))).
      cbn [upstream has_content].
      destruct (async_for_from it' process_chunk _) as [[fs st'] o].
      cbn [fst] in *. unfold content_frames in *. cbn [flat_map].
      now rewrite delta_frames_app, delta_frames_content_frame_of, IH.
    + rewrite (process_chunk_message_delta _ _ Hm Hd).
      unfold passes. rewrite Hm. reflexivity.
    + rewrite (process_chunk_bad_delta _ _ Ht Hd).
      assert (Hnp : passes chunk = false).
      { unfold passes. apply orb_prop in Ht. destruct Ht as [Hc | Hm].
        - rewrite Hc, Hd, (content_block_delta_not_message_delta _ Hc).
          reflexivity.
        - now rewrite Hm. }
      rewrite Hnp. now destruct (is_message_delta chunk).
  - rewrite async_for_step_raise. reflexivity.
Qed.

(** X13.  On every path the [content_block_delta] frames are those of the
    chunks that come before the end of the drain (the first
    [message_delta] chunk, the first chunk whose delta cannot be read, the
    first exception, or the end of the upstream): one frame for each chunk
    with a text that is true in a test, in the order of the chunks; the
    closing and error frames add none. *)
Theorem delta_frames_on_every_path
  (it : list anext_result) (message_id model : string) :
  delta_frames
    (frames (stream_claude_response (AsyncIterable it) message_id model))
  = content_frames (passing_prefix it).
Proof.
  pose proof (async_for_delta_frames it (mkLocals it false)) as Hd.
  destruct (async_for_from it process_chunk (mkLocals it false))
    as [[fs st'] o] eqn:Hloop.
  rewrite (lifecycle_run _ message_id model _ _ _ Hloop). cbn [frames].
  rewrite !delta_frames_app, delta_frames_opening, delta_frames_done.
  rewrite delta_frames_closing_frames. cbn [fst] in Hd. rewrite Hd.
  cbn [app]. now rewrite app_nil_r.
Qed.
